(** * Customer portal API (backend/main.py): a shallow embedding

    The service is a set of FastAPI handlers over one SQLite database.
    The embedding follows the source handler by handler:

    - A Python [str] is the Rocq string of its UTF-8 bytes; equality and
      the [in] substring test on [str] values are equality and substring
      on these bytes.  [str.lower] follows the Unicode tables of the
      interpreter: it is a parameter of the development (Section variable
      [str_lower]), and the two facts about it that are used are stated
      where they are used ([lowers_ascii_in_place], [blind_to_ascii_case]).
    - [datetime.now()], the SQL clock and [secrets.token_urlsafe] are
      inputs of a request ([Env]); [hashlib.sha256] is a parameter of the
      development (Section variable [sha256_hexdigest]).
    - A Python [int] is a [Z]; SQLite stores a 64-bit INTEGER, and binding
      a larger [int] to a statement raises OverflowError.
    - The database is a record of five tables, each a list of rows in
      rowid order.  A handler runs against a connection that keeps the
      committed database and the working copy of the open transaction
      apart, so that [conn.commit()], [conn.close()] and an exception
      that drops the connection mean what they mean in [sqlite3].
    - An HTTP outcome is either the handler's return value or the
      exception that ended it. *)

From Stdlib Require Import ZArith List String Ascii Bool Lia Floats.
From Stdlib Require Import Sorted Permutation.
Import ListNotations.

Local Open Scope list_scope.
Local Open Scope string_scope.
Local Open Scope Z_scope.

(* ================================================================= *)
(** ** Python strings *)

Module PyStr.

(** Folding the case of one ASCII letter: 'A'..'Z' move to 'a'..'z',
    every other byte stays. *)
Definition ascii_lower_char (c : ascii) : ascii :=
  let n := N_of_ascii c in
  if ((65 <=? n) && (n <=? 90))%N then ascii_of_N (n + 32) else c.

(** Folding the case of the ASCII letters of a string.  This is not
    [str.lower] (which also maps letters outside ASCII); it is what two
    strings that differ only in the case of ASCII letters have in
    common, and it is what [str.lower] does to a string of ASCII
    characters. *)
Fixpoint ascii_lower (s : string) : string :=
  match s with
  | EmptyString => EmptyString
  | String c s' => String (ascii_lower_char c) (ascii_lower s')
  end.

(** [s.isascii()]: every byte is below 128. *)
Fixpoint is_ascii (s : string) : bool :=
  match s with
  | EmptyString => true
  | String c s' => (N_of_ascii c <? 128)%N && is_ascii s'
  end.

(** [needle in hay]: [needle] occurs in [hay] as a contiguous substring. *)
Fixpoint str_in (needle hay : string) : bool :=
  prefix needle hay ||
  match hay with
  | EmptyString => false
  | String _ hay' => str_in needle hay'
  end.

(** Truthiness of a [str]: the empty string is falsy. *)
Definition truthy (s : string) : bool :=
  match s with EmptyString => false | String _ _ => true end.

(** One decimal digit. *)
Definition digit (n : Z) : ascii := ascii_of_N (48 + Z.to_N (n mod 10)).

(** ["%0<width>d" % n] for [0 <= n < 10^width]. *)
Fixpoint zpad (width : nat) (n : Z) : string :=
  match width with
  | O => EmptyString
  | S w => zpad w (n / 10) ++ String (digit n) EmptyString
  end.

End PyStr.

(* ================================================================= *)
(** ** Python [datetime] *)

Module PyDatetime.

Record datetime : Type := mk_datetime {
  year : Z; month : Z; day : Z;
  hour : Z; minute : Z; second : Z; microsecond : Z
}.

Definition MAXYEAR : Z := 9999.

Definition is_leap (y : Z) : bool :=
  (y mod 4 =? 0) && (negb (y mod 100 =? 0) || (y mod 400 =? 0)).

Definition days_in_month (y m : Z) : Z :=
  if m =? 2 then (if is_leap y then 29 else 28)
  else if (m =? 4) || (m =? 6) || (m =? 9) || (m =? 11) then 30
  else 31.

(** [d + timedelta(days=1)]: the time of day is kept, the date moves to
    the next calendar day; past 9999-12-31 Python raises OverflowError
    ([None]). *)
Definition add_one_day (d : datetime) : option datetime :=
  if day d <? days_in_month (year d) (month d) then
    Some (mk_datetime (year d) (month d) (day d + 1)
                      (hour d) (minute d) (second d) (microsecond d))
  else if month d <? 12 then
    Some (mk_datetime (year d) (month d + 1) 1
                      (hour d) (minute d) (second d) (microsecond d))
  else if year d <? MAXYEAR then
    Some (mk_datetime (year d + 1) 1 1
                      (hour d) (minute d) (second d) (microsecond d))
  else None.

(** [d.replace(hour=0, minute=0, second=0)]: the three named fields are
    replaced, every other field (the microsecond among them) is kept. *)
Definition replace_hms0 (d : datetime) : datetime :=
  mk_datetime (year d) (month d) (day d) 0 0 0 (microsecond d).

(** [d.isoformat()]: "YYYY-MM-DDTHH:MM:SS", followed by ".ffffff" when
    the microsecond is not zero. *)
Definition isoformat (d : datetime) : string :=
  PyStr.zpad 4 (year d) ++ "-" ++ PyStr.zpad 2 (month d) ++ "-" ++
  PyStr.zpad 2 (day d) ++ "T" ++ PyStr.zpad 2 (hour d) ++ ":" ++
  PyStr.zpad 2 (minute d) ++ ":" ++ PyStr.zpad 2 (second d) ++
  (if microsecond d =? 0 then "" else "." ++ PyStr.zpad 6 (microsecond d)).

(** [d] is a midnight: 00:00:00 and no fraction of a second. *)
Definition is_midnight (d : datetime) : bool :=
  (hour d =? 0) && (minute d =? 0) && (second d =? 0) && (microsecond d =? 0).

End PyDatetime.

(* ================================================================= *)
(** ** SQLite timestamps

    A TIMESTAMP column holds the text CURRENT_TIMESTAMP produces,
    "YYYY-MM-DD HH:MM:SS" in UTC.  It is modelled by its fields; the text
    order of that format is the lexicographic order of the fields. *)

Module Sql.

Record timestamp : Type := mk_timestamp {
  ts_year : Z; ts_month : Z; ts_day : Z;
  ts_hour : Z; ts_minute : Z; ts_second : Z
}.

(** [DATE(t)] *)
Definition DATE (t : timestamp) : Z * Z * Z := (ts_year t, ts_month t, ts_day t).

(** [strftime('%Y-%m', t)] *)
Definition strftime_Ym (t : timestamp) : Z * Z := (ts_year t, ts_month t).

Definition date_eqb (a b : Z * Z * Z) : bool :=
  let '(y1, m1, d1) := a in
  let '(y2, m2, d2) := b in
  (y1 =? y2) && (m1 =? m2) && (d1 =? d2).

Definition ym_eqb (a b : Z * Z) : bool :=
  let '(y1, m1) := a in
  let '(y2, m2) := b in
  (y1 =? y2) && (m1 =? m2).

Definition fields (t : timestamp) : list Z :=
  [ts_year t; ts_month t; ts_day t; ts_hour t; ts_minute t; ts_second t].

Fixpoint lex_leb (a b : list Z) : bool :=
  match a, b with
  | [], _ => true
  | _ :: _, [] => false
  | x :: a', y :: b' => (x <? y) || ((x =? y) && lex_leb a' b')
  end.

(** [a <= b] as timestamps. *)
Definition ts_leb (a b : timestamp) : bool := lex_leb (fields a) (fields b).

(** The text of a timestamp, as a SELECT returns it. *)
Definition text (t : timestamp) : string :=
  PyStr.zpad 4 (ts_year t) ++ "-" ++ PyStr.zpad 2 (ts_month t) ++ "-" ++
  PyStr.zpad 2 (ts_day t) ++ " " ++ PyStr.zpad 2 (ts_hour t) ++ ":" ++
  PyStr.zpad 2 (ts_minute t) ++ ":" ++ PyStr.zpad 2 (ts_second t).

Section OrderBy.
Context {R : Type} (leb : R -> R -> bool).

Fixpoint insert_sorted (x : R) (l : list R) : list R :=
  match l with
  | [] => [x]
  | y :: l' => if leb x y then x :: l else y :: insert_sorted x l'
  end.

(** [ORDER BY]: a stable insertion sort (rows that compare equal stay
    in rowid order, which SQLite leaves unspecified). *)
Fixpoint order_by (l : list R) : list R :=
  match l with
  | [] => []
  | x :: l' => insert_sorted x (order_by l')
  end.

End OrderBy.

(** [LIMIT n] *)
Definition LIMIT {R : Type} (n : nat) (l : list R) : list R := firstn n l.

(** [cursor.fetchone()] *)
Definition fetchone {R : Type} (l : list R) : option R := hd_error l.

(** [SELECT COUNT( * )] *)
Definition COUNT {R : Type} (l : list R) : Z := Z.of_nat (List.length l).

(** SQLite's INTEGER: a 64-bit signed integer. *)
Definition INT64_MIN : Z := - 2 ^ 63.
Definition INT64_MAX : Z := 2 ^ 63 - 1.

Definition in_int64 (n : Z) : bool := (INT64_MIN <=? n) && (n <=? INT64_MAX).

(** The rowid an INSERT gives to a new row of an INTEGER PRIMARY KEY
    AUTOINCREMENT table: one more than the largest rowid.  The service
    never deletes a row, so the largest rowid of the table is also the
    largest one ever used. *)
Definition next_rowid (ids : list Z) : Z := 1 + fold_right Z.max 0 ids.

End Sql.

(* ================================================================= *)
(** ** The five tables (init_db) *)

Module ApiKey.
Record row : Type := mk {
  id : Z;
  customer_id : string;
  key_hash : string;
  name : option string;
  created_at : Sql.timestamp;
  last_used : option Sql.timestamp;
  revoked : bool
}.
(** [SET revoked = 1] on one row. *)
Definition set_revoked (r : row) : row :=
  mk (id r) (customer_id r) (key_hash r) (name r) (created_at r) (last_used r) true.
End ApiKey.

Module Usage.
Record row : Type := mk {
  id : Z;
  customer_id : string;
  api_key_hash : string;
  timestamp : option Sql.timestamp;
  endpoint : option string;
  success : bool
}.
End Usage.

Module Ticket.
Record row : Type := mk {
  id : Z;
  customer_id : string;
  subject : string;
  message : string;
  category : string;
  status : string;
  ai_responded : bool;
  created_at : Sql.timestamp;
  resolved_at : option Sql.timestamp
}.
(** [SET ai_responded = 1] on one row. *)
Definition set_ai_responded (r : row) : row :=
  mk (id r) (customer_id r) (subject r) (message r) (category r) (status r)
     true (created_at r) (resolved_at r).
End Ticket.

Module TicketResponse.
Record row : Type := mk {
  id : Z;
  ticket_id : Z;
  from_agent : bool;
  message : string;
  created_at : Sql.timestamp
}.
End TicketResponse.

Module Billing.
Record row : Type := mk {
  id : Z;
  customer_id : string;
  invoice_id : string;
  amount : float;
  status : string;
  description : option string;
  created_at : Sql.timestamp
}.
End Billing.

(** The database file: every table is the list of its rows in rowid
    order (an INSERT appends). *)
Record Store : Type := mk_store {
  api_keys : list ApiKey.row;
  usage : list Usage.row;
  tickets : list Ticket.row;
  ticket_responses : list TicketResponse.row;
  billing : list Billing.row
}.

(** The database right after [init_db()] on a fresh file. *)
Definition empty_store : Store := mk_store [] [] [] [] [].

(* ================================================================= *)
(** ** Outcomes and connections *)

(** What can end a request other than the handler's return value. *)
Inductive Failure : Type :=
| HTTPException (status_code : Z) (detail : string)
| RequestValidationError   (* raised by FastAPI before the handler runs *)
| IntegrityError           (* sqlite3: a UNIQUE constraint failed *)
| OverflowError.           (* datetime: date value out of range;
                              sqlite3: Python int too large to convert
                              to SQLite INTEGER *)

(** The HTTP status the client sees. *)
Definition http_status {A : Type} (r : Failure + A) : Z :=
  match r with
  | inr _ => 200
  | inl (HTTPException code _) => code
  | inl RequestValidationError => 422
  | inl IntegrityError => 500
  | inl OverflowError => 500
  end.

(** A [sqlite3] connection: the database as committed, and the working
    copy that the statements of the open transaction have changed. *)
Record Connection : Type := mk_conn {
  committed : Store;
  working : Store
}.

(** A piece of handler code: it runs on a connection and either returns
    a value or raises; in both cases the connection goes on. *)
Definition Handler (A : Type) : Type := Connection -> (Failure + A) * Connection.

Definition ret {A : Type} (a : A) : Handler A := fun c => (inr a, c).

Definition raise {A : Type} (e : Failure) : Handler A := fun c => (inl e, c).

Definition bind {A B : Type} (m : Handler A) (k : A -> Handler B) : Handler B :=
  fun c =>
    match m c with
    | (inl e, c') => (inl e, c')
    | (inr a, c') => k a c'
    end.

Notation "x <- m ;; k" := (bind m (fun x => k))
  (at level 61, m at next level, right associativity).
Notation "m ;; k" := (bind m (fun _ => k))
  (at level 61, right associativity).

(** [c.execute(SELECT ...)] followed by a fetch: reads the working copy. *)
Definition query {A : Type} (q : Store -> A) : Handler A :=
  fun c => (inr (q (working c)), c).

(** [c.execute(UPDATE ...)]: changes the working copy only. *)
Definition execute (u : Store -> Store) : Handler unit :=
  fun c => (inr tt, mk_conn (committed c) (u (working c))).

(** [c.execute(INSERT ...)]: the new working copy and [c.lastrowid], or
    the constraint failure. *)
Definition execute_insert (ins : Store -> Failure + Store * Z) : Handler Z :=
  fun c =>
    match ins (working c) with
    | inl e => (inl e, c)
    | inr (s, rowid) => (inr rowid, mk_conn (committed c) s)
    end.

(** Binding a Python [int] to a parameter of a statement: [sqlite3]
    converts it to a 64-bit INTEGER and raises OverflowError for an
    [int] outside that range, before the statement runs.  It is written
    for the integers a request supplies; the ids a handler has read from
    the database or from [lastrowid] are INTEGERs already. *)
Definition bind_int (n : Z) : Handler unit :=
  fun c => if Sql.in_int64 n then (inr tt, c) else (inl OverflowError, c).

(** [conn.commit()] *)
Definition commit : Handler unit :=
  fun c => (inr tt, mk_conn (working c) (working c)).

(** [conn.close()]: what was not committed is rolled back. *)
Definition close : Handler unit :=
  fun c => (inr tt, mk_conn (committed c) (committed c)).

(** One request: [sqlite3.connect(DATABASE)], the handler's code, and the
    database left behind.  A connection that is dropped (by [close] or by
    an exception leaving the handler) leaves the committed state. *)
Definition run {A : Type} (h : Handler A) (db : Store) : (Failure + A) * Store :=
  let (r, c) := h (mk_conn db db) in (r, committed c).

(** What a request reads from outside: the SQL clock at its n-th
    statement (CURRENT_TIMESTAMP, 'now'; UTC), [datetime.now()] (local
    time) and the value of [secrets.token_urlsafe(32)]. *)
Record Env : Type := mk_env {
  sql_now : nat -> Sql.timestamp;
  now : PyDatetime.datetime;
  token_urlsafe : string
}.

(* ================================================================= *)
(** ** Request and response bodies *)

Module APIKeyRequest.
Record t : Type := mk { customer_id : string; name : option string }.
End APIKeyRequest.

Module APIKeyRotateRequest.
Record t : Type := mk { old_key : string }.
End APIKeyRotateRequest.

Module TicketCreate.
Record t : Type := mk { subject : string; message : string; category : string }.
End TicketCreate.

Module KeyCreated.
Record t : Type := mk {
  key_id : Z; api_key : string; name : option string;
  created_at : string; warning : string
}.
End KeyCreated.

Module KeyRotated.
Record t : Type := mk {
  key_id : Z; api_key : string; created_at : string; warning : string
}.
End KeyRotated.

Module KeyInfo.
Record t : Type := mk {
  key_id : Z; name : option string; created_at : string;
  last_used : option string; revoked : bool
}.
End KeyInfo.

Module UsageStats.
Record t : Type := mk {
  today : Z; this_month : Z; all_time : Z;
  current_rate_limit : Z; rate_limit_reset : option string
}.
End UsageStats.

Module BillingHistory.
Record t : Type := mk {
  invoice_id : string; date : string; amount : float;
  status : string; description : string
}.
End BillingHistory.

Module TicketCreated.
Record t : Type := mk {
  ticket_id : Z; status : string; ai_responded : bool; message : string
}.
End TicketCreated.

Module TicketInfo.
Record t : Type := mk {
  id : Z; subject : string; message : string; category : string;
  status : string; ai_responded : bool; created_at : string
}.
End TicketInfo.

Module ResponseInfo.
Record t : Type := mk {
  from_agent : bool; message : string; created_at : string
}.
End ResponseInfo.

(* ================================================================= *)
(** ** The SQL statements of the handlers *)

Module Stmt.

(** INSERT INTO api_keys (customer_id, key_hash, name) VALUES (?, ?, ?)
    [key_hash] is UNIQUE; created_at, last_used and revoked take their
    defaults. *)
Definition insert_api_key (ts : Sql.timestamp) (customer_id key_hash : string)
    (name : option string) (s : Store) : Failure + Store * Z :=
  if existsb (fun r => String.eqb (ApiKey.key_hash r) key_hash) (api_keys s)
  then inl IntegrityError
  else
    let rowid := Sql.next_rowid (map ApiKey.id (api_keys s)) in
    let r := ApiKey.mk rowid customer_id key_hash name ts None false in
    inr (mk_store (api_keys s ++ [r]) (usage s) (tickets s)
                  (ticket_responses s) (billing s), rowid).

(** SELECT id FROM api_keys
    WHERE customer_id = ? AND key_hash = ? AND revoked = 0 *)
Definition active_key (customer_id key_hash : string) (r : ApiKey.row) : bool :=
  String.eqb (ApiKey.customer_id r) customer_id &&
  String.eqb (ApiKey.key_hash r) key_hash &&
  negb (ApiKey.revoked r).

Definition select_active_key_id (customer_id key_hash : string) (s : Store)
    : list Z :=
  map ApiKey.id (filter (active_key customer_id key_hash) (api_keys s)).

(** UPDATE api_keys SET revoked = 1 WHERE id = ? *)
Definition revoke_by_id (key_id : Z) (s : Store) : Store :=
  mk_store
    (map (fun r => if ApiKey.id r =? key_id then ApiKey.set_revoked r else r)
         (api_keys s))
    (usage s) (tickets s) (ticket_responses s) (billing s).

(** UPDATE api_keys SET revoked = 1 WHERE id = ? AND customer_id = ? *)
Definition revoke_by_id_and_customer (key_id : Z) (customer_id : string)
    (s : Store) : Store :=
  mk_store
    (map (fun r => if (ApiKey.id r =? key_id) &&
                      String.eqb (ApiKey.customer_id r) customer_id
                   then ApiKey.set_revoked r else r)
         (api_keys s))
    (usage s) (tickets s) (ticket_responses s) (billing s).

(** SELECT id, name, created_at, last_used, revoked FROM api_keys
    WHERE customer_id = ? ORDER BY created_at DESC *)
Definition select_keys_of (customer_id : string) (s : Store) : list ApiKey.row :=
  Sql.order_by (fun a b => Sql.ts_leb (ApiKey.created_at b) (ApiKey.created_at a))
    (filter (fun r => String.eqb (ApiKey.customer_id r) customer_id) (api_keys s)).

(** The rows of [usage] that belong to a customer. *)
Definition usage_of (customer_id : string) (s : Store) : list Usage.row :=
  filter (fun r => String.eqb (Usage.customer_id r) customer_id) (usage s).

(** DATE(timestamp) = DATE('now'); a NULL timestamp compares to NULL. *)
Definition same_day (sql_now : Sql.timestamp) (r : Usage.row) : bool :=
  match Usage.timestamp r with
  | Some t => Sql.date_eqb (Sql.DATE t) (Sql.DATE sql_now)
  | None => false
  end.

(** strftime('%Y-%m', timestamp) = strftime('%Y-%m', 'now') *)
Definition same_month (sql_now : Sql.timestamp) (r : Usage.row) : bool :=
  match Usage.timestamp r with
  | Some t => Sql.ym_eqb (Sql.strftime_Ym t) (Sql.strftime_Ym sql_now)
  | None => false
  end.

(** SELECT COUNT( * ) FROM usage
    WHERE customer_id = ? AND DATE(timestamp) = DATE('now') *)
Definition count_usage_today (sql_now : Sql.timestamp) (customer_id : string)
    (s : Store) : Z :=
  Sql.COUNT (filter (same_day sql_now) (usage_of customer_id s)).

(** SELECT COUNT( * ) FROM usage WHERE customer_id = ?
    AND strftime('%Y-%m', timestamp) = strftime('%Y-%m', 'now') *)
Definition count_usage_month (sql_now : Sql.timestamp) (customer_id : string)
    (s : Store) : Z :=
  Sql.COUNT (filter (same_month sql_now) (usage_of customer_id s)).

(** SELECT COUNT( * ) FROM usage WHERE customer_id = ? *)
Definition count_usage_all (customer_id : string) (s : Store) : Z :=
  Sql.COUNT (usage_of customer_id s).

(** SELECT invoice_id, created_at, amount, status, description FROM billing
    WHERE customer_id = ? ORDER BY created_at DESC LIMIT 12 *)
Definition select_billing_of (customer_id : string) (s : Store)
    : list Billing.row :=
  Sql.LIMIT 12
    (Sql.order_by
       (fun a b => Sql.ts_leb (Billing.created_at b) (Billing.created_at a))
       (filter (fun r => String.eqb (Billing.customer_id r) customer_id)
               (billing s))).

(** INSERT INTO tickets (customer_id, subject, message, category)
    VALUES (?, ?, ?, ?)
    status defaults to 'open', ai_responded to 0, resolved_at to NULL. *)
Definition insert_ticket (ts : Sql.timestamp)
    (customer_id subject message category : string) (s : Store)
    : Failure + Store * Z :=
  let rowid := Sql.next_rowid (map Ticket.id (tickets s)) in
  let r := Ticket.mk rowid customer_id subject message category "open"
                     false ts None in
  inr (mk_store (api_keys s) (usage s) (tickets s ++ [r])
                (ticket_responses s) (billing s), rowid).

(** INSERT INTO ticket_responses (ticket_id, from_agent, message)
    VALUES (?, ?, ?) *)
Definition insert_ticket_response (ts : Sql.timestamp) (ticket_id : Z)
    (from_agent : bool) (message : string) (s : Store) : Failure + Store * Z :=
  let rowid := Sql.next_rowid (map TicketResponse.id (ticket_responses s)) in
  let r := TicketResponse.mk rowid ticket_id from_agent message ts in
  inr (mk_store (api_keys s) (usage s) (tickets s)
                (ticket_responses s ++ [r]) (billing s), rowid).

(** UPDATE tickets SET ai_responded = 1 WHERE id = ? *)
Definition mark_ai_responded (ticket_id : Z) (s : Store) : Store :=
  mk_store (api_keys s) (usage s)
    (map (fun r => if Ticket.id r =? ticket_id
                   then Ticket.set_ai_responded r else r)
         (tickets s))
    (ticket_responses s) (billing s).

(** SELECT id, subject, message, category, status, ai_responded, created_at
    FROM tickets WHERE customer_id = ? ORDER BY created_at DESC *)
Definition select_tickets_of (customer_id : string) (s : Store)
    : list Ticket.row :=
  Sql.order_by
    (fun a b => Sql.ts_leb (Ticket.created_at b) (Ticket.created_at a))
    (filter (fun r => String.eqb (Ticket.customer_id r) customer_id)
            (tickets s)).

(** SELECT id FROM tickets WHERE id = ? AND customer_id = ? *)
Definition owned_ticket (ticket_id : Z) (customer_id : string)
    (r : Ticket.row) : bool :=
  (Ticket.id r =? ticket_id) && String.eqb (Ticket.customer_id r) customer_id.

Definition select_owned_ticket (ticket_id : Z) (customer_id : string)
    (s : Store) : list Z :=
  map Ticket.id (filter (owned_ticket ticket_id customer_id) (tickets s)).

(** SELECT from_agent, message, created_at FROM ticket_responses
    WHERE ticket_id = ? ORDER BY created_at ASC *)
Definition select_responses_of (ticket_id : Z) (s : Store)
    : list TicketResponse.row :=
  Sql.order_by
    (fun a b => Sql.ts_leb (TicketResponse.created_at a)
                           (TicketResponse.created_at b))
    (filter (fun r => TicketResponse.ticket_id r =? ticket_id)
            (ticket_responses s)).

End Stmt.

(* ================================================================= *)
(** ** The auto-responder (generate_ai_response) *)

Module Responder.

Definition nl : string := String "010"%char EmptyString.

Definition API_KEY_RESPONSE : string :=
  "To rotate your API key:" ++ nl ++
  "1. Go to the 'API Keys' tab" ++ nl ++
  "2. Click 'Rotate Key' next to your current key" ++ nl ++
  "3. Save the new key immediately (it won't be shown again)" ++ nl ++ nl ++
  "Your old key will be revoked automatically.".

Definition USAGE_RESPONSE : string :=
  "You can view your real-time usage statistics on the dashboard:" ++ nl ++
  "- Today's requests" ++ nl ++
  "- This month's total" ++ nl ++
  "- All-time usage" ++ nl ++ nl ++
  "Visit the 'Usage' tab for detailed analytics.".

Definition BILLING_RESPONSE : string :=
  "Your billing history is available in the 'Billing' tab. You'll find:" ++ nl ++
  "- All invoices (last 12 months)" ++ nl ++
  "- Payment status" ++ nl ++
  "- Usage breakdown" ++ nl ++ nl ++
  "For refunds or billing disputes, please reply to this ticket and we'll prioritize it.".

Definition RATE_LIMIT_RESPONSE : string :=
  "You've hit your rate limit. Check the 'Usage' tab for:" ++ nl ++
  "- Current limit remaining" ++ nl ++
  "- Reset time (usually midnight UTC)" ++ nl ++ nl ++
  "To increase your limit, upgrade your plan or contact us for custom limits.".

(** The four keyword sets, in the order the source tests them. *)
Definition API_KEY_WORDS : list string := ["api key"; "reset key"].
Definition USAGE_WORDS : list string := ["usage"; "how many"; "calls"].
Definition BILLING_WORDS : list string := ["bill"; "charge"; "invoice"].
Definition RATE_LIMIT_WORDS : list string := ["429"; "rate limit"; "too many requests"].

Section Lower.

(** [s.lower()] *)
Variable str_lower : string -> string.

(** [text = f"{subject} {message}".lower()] *)
Definition text_of (subject message : string) : string :=
  str_lower (subject ++ " " ++ message).

Definition generate_ai_response (subject message category : string)
    : option string :=
  let text := text_of subject message in
  if PyStr.str_in "api key" text || PyStr.str_in "reset key" text then
    Some API_KEY_RESPONSE
  else if PyStr.str_in "usage" text || PyStr.str_in "how many" text
          || PyStr.str_in "calls" text then
    Some USAGE_RESPONSE
  else if PyStr.str_in "bill" text || PyStr.str_in "charge" text
          || PyStr.str_in "invoice" text then
    Some BILLING_RESPONSE
  else if PyStr.str_in "429" text || PyStr.str_in "rate limit" text
          || PyStr.str_in "too many requests" text then
    Some RATE_LIMIT_RESPONSE
  else None.

End Lower.

(** [text] contains one of the words of a set. *)
Definition matches (words : list string) (text : string) : bool :=
  existsb (fun w => PyStr.str_in w text) words.

End Responder.

(* ================================================================= *)
(** ** The handlers *)

Section Portal.

(** [hashlib.sha256(b).hexdigest()] *)
Variable sha256_hexdigest : string -> string.

(** [s.lower()] *)
Variable str_lower : string -> string.

Definition hash_api_key (key : string) : string := sha256_hexdigest key.

(** The dependency [verify_customer].  Its parameter is declared
    [Header(..., alias="X-Customer-ID")], a required header: when the
    request has no such header FastAPI answers with a validation error
    and the function body does not run. *)
Definition verify_customer (header : option string) : Failure + string :=
  match header with
  | None => inl RequestValidationError
  | Some customer_id =>
      if negb (PyStr.truthy customer_id)
      then inl (HTTPException 401 "Customer ID required")
      else inr customer_id
  end.

(** [customer_id: str = Depends(verify_customer)] *)
Definition Depends_verify_customer {A : Type} (header : option string)
    (h : string -> Handler A) : Handler A :=
  match verify_customer header with
  | inl e => raise e
  | inr customer_id => h customer_id
  end.

Definition create_api_key (env : Env) (request : APIKeyRequest.t)
    : Handler KeyCreated.t :=
  let key := "sk_" ++ token_urlsafe env in
  let key_hash := hash_api_key key in
  key_id <- execute_insert
              (Stmt.insert_api_key (sql_now env 0)
                 (APIKeyRequest.customer_id request) key_hash
                 (APIKeyRequest.name request)) ;;
  commit ;;
  close ;;
  ret (KeyCreated.mk key_id key (APIKeyRequest.name request)
         (PyDatetime.isoformat (now env))
         "Save this key - it won't be shown again").

Definition rotate_api_key (env : Env) (request : APIKeyRotateRequest.t)
    (customer_id : string) : Handler KeyRotated.t :=
  let old_hash := hash_api_key (APIKeyRotateRequest.old_key request) in
  result <- query (fun s =>
              Sql.fetchone (Stmt.select_active_key_id customer_id old_hash s)) ;;
  match result with
  | None =>
      close ;;
      raise (HTTPException 404 "API key not found")
  | Some old_key_id =>
      execute (Stmt.revoke_by_id old_key_id) ;;
      let new_key := "sk_" ++ token_urlsafe env in
      let new_hash := hash_api_key new_key in
      new_key_id <- execute_insert
                      (Stmt.insert_api_key (sql_now env 2) customer_id new_hash
                         (Some "Rotated Key")) ;;
      commit ;;
      close ;;
      ret (KeyRotated.mk new_key_id new_key (PyDatetime.isoformat (now env))
             "Old key has been revoked")
  end.

(** The key row that a rotation inserts. *)
Definition rotated_key (env : Env) (customer_id : string) (db : Store) : ApiKey.row :=
  ApiKey.mk (Sql.next_rowid (map ApiKey.id (api_keys db))) customer_id
    (hash_api_key ("sk_" ++ token_urlsafe env)) (Some "Rotated Key")
    (sql_now env 2) None false.

Definition key_info (r : ApiKey.row) : KeyInfo.t :=
  KeyInfo.mk (ApiKey.id r) (ApiKey.name r) (Sql.text (ApiKey.created_at r))
    (option_map Sql.text (ApiKey.last_used r)) (ApiKey.revoked r).

Definition list_api_keys (customer_id : string) : Handler (list KeyInfo.t) :=
  rows <- query (Stmt.select_keys_of customer_id) ;;
  close ;;
  ret (map key_info rows).

Definition revoke_api_key (key_id : Z) (customer_id : string) : Handler string :=
  bind_int key_id ;;
  execute (Stmt.revoke_by_id_and_customer key_id customer_id) ;;
  commit ;;
  close ;;
  ret "API key revoked".

Definition get_usage_stats (env : Env) (customer_id : string)
    : Handler UsageStats.t :=
  today <- query (Stmt.count_usage_today (sql_now env 0) customer_id) ;;
  this_month <- query (Stmt.count_usage_month (sql_now env 1) customer_id) ;;
  all_time <- query (Stmt.count_usage_all customer_id) ;;
  close ;;
  let rate_limit := 1000 in
  match PyDatetime.add_one_day (now env) with
  | None => raise OverflowError
  | Some tomorrow =>
      let reset_time := PyDatetime.replace_hms0 tomorrow in
      ret (UsageStats.mk today this_month all_time (rate_limit - today)
             (if today >? 0 then Some (PyDatetime.isoformat reset_time)
              else None))
  end.

(** [row[4] or "API Usage"] *)
Definition description_or_default (d : option string) : string :=
  match d with
  | Some s => if PyStr.truthy s then s else "API Usage"
  | None => "API Usage"
  end.

Definition billing_entry (r : Billing.row) : BillingHistory.t :=
  BillingHistory.mk (Billing.invoice_id r) (Sql.text (Billing.created_at r))
    (Billing.amount r) (Billing.status r)
    (description_or_default (Billing.description r)).

Definition get_billing_history (customer_id : string)
    : Handler (list BillingHistory.t) :=
  rows <- query (Stmt.select_billing_of customer_id) ;;
  close ;;
  ret (map billing_entry rows).

(** [ai_response is not None] *)
Definition is_not_None {A : Type} (o : option A) : bool :=
  match o with Some _ => true | None => false end.

Definition create_ticket (env : Env) (ticket : TicketCreate.t)
    (customer_id : string) : Handler TicketCreated.t :=
  ticket_id <- execute_insert
                 (Stmt.insert_ticket (sql_now env 0) customer_id
                    (TicketCreate.subject ticket) (TicketCreate.message ticket)
                    (TicketCreate.category ticket)) ;;
  commit ;;
  let ai_response :=
    Responder.generate_ai_response str_lower (TicketCreate.subject ticket)
      (TicketCreate.message ticket) (TicketCreate.category ticket) in
  (match ai_response with
   | Some m =>
       if PyStr.truthy m then
         execute_insert
           (Stmt.insert_ticket_response (sql_now env 1) ticket_id false m) ;;
         execute (Stmt.mark_ai_responded ticket_id) ;;
         commit
       else ret tt
   | None => ret tt
   end) ;;
  close ;;
  ret (TicketCreated.mk ticket_id "open" (is_not_None ai_response)
         "Ticket created successfully").

Definition ticket_info (r : Ticket.row) : TicketInfo.t :=
  TicketInfo.mk (Ticket.id r) (Ticket.subject r) (Ticket.message r)
    (Ticket.category r) (Ticket.status r) (Ticket.ai_responded r)
    (Sql.text (Ticket.created_at r)).

Definition list_tickets (customer_id : string) : Handler (list TicketInfo.t) :=
  rows <- query (Stmt.select_tickets_of customer_id) ;;
  close ;;
  ret (map ticket_info rows).

Definition response_info (r : TicketResponse.row) : ResponseInfo.t :=
  ResponseInfo.mk (TicketResponse.from_agent r) (TicketResponse.message r)
    (Sql.text (TicketResponse.created_at r)).

Definition get_ticket_responses (ticket_id : Z) (customer_id : string)
    : Handler (list ResponseInfo.t) :=
  bind_int ticket_id ;;
  found <- query (fun s =>
             Sql.fetchone (Stmt.select_owned_ticket ticket_id customer_id s)) ;;
  match found with
  | None =>
      close ;;
      raise (HTTPException 404 "Ticket not found")
  | Some _ =>
      rows <- query (Stmt.select_responses_of ticket_id) ;;
      close ;;
      ret (map response_info rows)
  end.

(** *** The routes: the dependency, then the handler, on one request. *)

Definition POST_keys_create (env : Env) (request : APIKeyRequest.t) (db : Store) :=
  run (create_api_key env request) db.

Definition POST_keys_rotate (env : Env) (header : option string)
    (request : APIKeyRotateRequest.t) (db : Store) :=
  run (Depends_verify_customer header (rotate_api_key env request)) db.

Definition GET_keys_list (header : option string) (db : Store) :=
  run (Depends_verify_customer header list_api_keys) db.

Definition DELETE_keys (header : option string) (key_id : Z) (db : Store) :=
  run (Depends_verify_customer header (revoke_api_key key_id)) db.

Definition GET_usage_stats (env : Env) (header : option string) (db : Store) :=
  run (Depends_verify_customer header (get_usage_stats env)) db.

Definition GET_billing_history (header : option string) (db : Store) :=
  run (Depends_verify_customer header get_billing_history) db.

Definition POST_tickets_create (env : Env) (header : option string)
    (ticket : TicketCreate.t) (db : Store) :=
  run (Depends_verify_customer header (create_ticket env ticket)) db.

Definition GET_tickets_list (header : option string) (db : Store) :=
  run (Depends_verify_customer header list_tickets) db.

Definition GET_tickets_responses (header : option string) (ticket_id : Z)
    (db : Store) :=
  run (Depends_verify_customer header (get_ticket_responses ticket_id)) db.

End Portal.

(* ================================================================= *)
(** ** The schema's constraints

    init_db declares an INTEGER PRIMARY KEY on every table and UNIQUE on
    api_keys.key_hash; SQLite keeps both true of every database it
    stores. *)

Definition schema_ok (db : Store) : Prop :=
  NoDup (map ApiKey.id (api_keys db)) /\
  NoDup (map ApiKey.key_hash (api_keys db)) /\
  NoDup (map Usage.id (usage db)) /\
  NoDup (map Ticket.id (tickets db)) /\
  NoDup (map TicketResponse.id (ticket_responses db)) /\
  NoDup (map Billing.id (billing db)).

(** The customer's keys that are not revoked. *)
Definition active_keys_of (customer_id : string) (db : Store) : list ApiKey.row :=
  filter (fun r => String.eqb (ApiKey.customer_id r) customer_id &&
                   negb (ApiKey.revoked r))
         (api_keys db).

(* ================================================================= *)
(** ** Vocabulary of the statements, and sample data *)

(** The next midnight after [d]: the following day at 00:00:00 sharp. *)
Definition next_midnight (d : PyDatetime.datetime) : option PyDatetime.datetime :=
  match PyDatetime.add_one_day d with
  | Some t =>
      Some (PyDatetime.mk_datetime (PyDatetime.year t) (PyDatetime.month t)
              (PyDatetime.day t) 0 0 0 0)
  | None => None
  end.

(** Two facts about [str.lower] that the statements use.  It maps each
    character on its own, so an occurrence of ASCII characters in [s] is,
    in [s.lower()], an occurrence of the same characters with 'A'..'Z'
    folded to 'a'..'z' ... *)
Definition lowers_ascii_in_place (str_lower : string -> string) : Prop :=
  forall k s, PyStr.is_ascii k = true -> PyStr.str_in k s = true ->
    PyStr.str_in (PyStr.ascii_lower k) (str_lower s) = true.

(** ... and it gives the same result on two strings that differ only in
    the case of ASCII letters. *)
Definition blind_to_ascii_case (str_lower : string -> string) : Prop :=
  forall s, str_lower (PyStr.ascii_lower s) = str_lower s.

(** Rows in the order of [ORDER BY created_at DESC]: every row is at
    least as recent as the one after it. *)
Definition newest_first {R : Type} (created_at : R -> Sql.timestamp)
    (rows : list R) : Prop :=
  Sorted (fun a b => Sql.ts_leb (created_at b) (created_at a) = true) rows.

(** Rows in the order of [ORDER BY created_at ASC]. *)
Definition oldest_first {R : Type} (created_at : R -> Sql.timestamp)
    (rows : list R) : Prop :=
  Sorted (fun a b => Sql.ts_leb (created_at a) (created_at b) = true) rows.

(** The FOREIGN KEY of ticket_responses: every response row names the id
    of a ticket row. *)
Definition responses_reference_tickets (db : Store) : Prop :=
  forall r, In r (ticket_responses db) ->
    exists t, In t (tickets db) /\ Ticket.id t = TicketResponse.ticket_id r.

(** A ticket flagged ai_responded has a reply that is not from an agent. *)
Definition flagged_tickets_have_reply (db : Store) : Prop :=
  forall t, In t (tickets db) -> Ticket.ai_responded t = true ->
    exists r, In r (ticket_responses db) /\
              TicketResponse.ticket_id r = Ticket.id t /\
              TicketResponse.from_agent r = false.

(** What every request keeps of the key table: no key row is deleted,
    given to another customer or given another digest, and no revoked key
    becomes active again. *)
Definition keys_kept (db db' : Store) : Prop :=
  forall r, In r (api_keys db) ->
    exists r', In r' (api_keys db') /\
               ApiKey.id r' = ApiKey.id r /\
               ApiKey.customer_id r' = ApiKey.customer_id r /\
               ApiKey.key_hash r' = ApiKey.key_hash r /\
               (ApiKey.revoked r = true -> ApiKey.revoked r' = true).

Module Sample.

(** A stand-in for SHA-256 on which the handlers can be run. *)
Definition digest (s : string) : string := "sha256(" ++ s ++ ")".

(** [str.lower] on the samples, which are ASCII text. *)
Definition lower : string -> string := PyStr.ascii_lower.

(** The first integer above SQLite's INTEGER range. *)
Definition too_big : Z := 9223372036854775808.

Definition clock : Sql.timestamp := Sql.mk_timestamp 2024 1 15 10 30 45.

Definition env : Env :=
  mk_env (fun _ => clock)
         (PyDatetime.mk_datetime 2024 1 15 10 30 45 123456)
         "Zm9vYmFy".

Definition alice_key : ApiKey.row :=
  ApiKey.mk 1 "alice" (digest "sk_old") (Some "Default Key") clock None false.

Definition bob_key : ApiKey.row :=
  ApiKey.mk 2 "bob" (digest "sk_bob") (Some "Default Key") clock None false.

Definition db_keys : Store := mk_store [alice_key; bob_key] [] [] [] [].

Definition rotate_request : APIKeyRotateRequest.t :=
  APIKeyRotateRequest.mk "sk_old".

(** What alice's rotation of "sk_old" is expected to return and leave. *)
Definition rotated_body : KeyRotated.t :=
  KeyRotated.mk 3 "sk_Zm9vYmFy" "2024-01-15T10:30:45.123456"
    "Old key has been revoked".

Definition db_rotated : Store :=
  mk_store
    [ApiKey.set_revoked alice_key; bob_key;
     ApiKey.mk 3 "alice" (digest "sk_Zm9vYmFy") (Some "Rotated Key") clock
       None false]
    [] [] [] [].

Definition event (customer_id : string) (id : Z) : Usage.row :=
  Usage.mk id customer_id (digest "sk_old") (Some clock) (Some "/v1/run") true.

(** One event of alice, today. *)
Definition db_usage : Store := mk_store [] [event "alice" 1] [] [] [].

(** 1001 events of alice, today. *)
Definition db_heavy : Store :=
  mk_store [] (map (fun i => event "alice" (Z.of_nat i)) (seq 1 1001)) [] [] [].

Definition alice_ticket : Ticket.row :=
  Ticket.mk 1 "alice" "Need to reset key" "help" "general" "open" true clock None.

Definition bob_ticket : Ticket.row :=
  Ticket.mk 2 "bob" "Hello" "the dashboard is slow" "general" "open" false clock None.

Definition alice_reply : TicketResponse.row :=
  TicketResponse.mk 1 1 false Responder.API_KEY_RESPONSE clock.

Definition db_tickets : Store :=
  mk_store [] [] [alice_ticket; bob_ticket] [alice_reply] [].

(** A later request, with another token. *)
Definition env_next : Env :=
  mk_env (fun _ => clock)
         (PyDatetime.mk_datetime 2024 1 15 10 31 2 0)
         "YmF6cXV4".

(** A request whose token is the one bob's key was made from. *)
Definition env_collision : Env :=
  mk_env (fun _ => clock) (now env) "bob".

Definition create_request : APIKeyRequest.t :=
  APIKeyRequest.mk "carol" (Some "Default Key").

(** carol's key, as [create_api_key] stores it in [db_keys]. *)
Definition carol_key : ApiKey.row :=
  ApiKey.mk 3 "carol" (digest "sk_Zm9vYmFy") (Some "Default Key") clock
    None false.

Definition db_created : Store :=
  mk_store [alice_key; bob_key; carol_key] [] [] [] [].

Definition invoice (id : Z) (customer_id : string) (day : Z)
    (description : option string) : Billing.row :=
  Billing.mk id customer_id "INV" 9.5%float "paid" description
    (Sql.mk_timestamp 2024 1 day 0 0 0).

Definition db_billing : Store :=
  mk_store [] [] [] []
    [invoice 1 "alice" 3 None; invoice 2 "bob" 4 (Some "Plan");
     invoice 3 "alice" 5 (Some "")].

End Sample.

(* ================================================================= *)
(** * Properties *)

(** ** Substring test and case folding *)

Module PyStrFacts.
Import PyStr.

Lemma prefix_iff (p s : string) :
  prefix p s = true <-> exists rest, s = p ++ rest.
Proof.
  revert s; induction p as [|c p IH]; intros s.
  - destruct s; simpl; split; eauto.
  - destruct s as [|d s]; simpl.
    + split; [discriminate | intros [rest H]; discriminate].
    + destruct (ascii_dec c d) as [->|Hcd].
      * rewrite IH. split; intros [rest H]; exists rest.
        -- now subst.
        -- now injection H.
      * split; [discriminate | intros [rest H]; injection H; congruence].
Qed.

Lemma append_assoc (a b c : string) : (a ++ b) ++ c = a ++ (b ++ c).
Proof. induction a; simpl; congruence. Qed.

(** [needle in hay] holds exactly when [hay] splits around [needle]. *)
Lemma str_in_iff (needle hay : string) :
  str_in needle hay = true <->
  exists before after, hay = before ++ needle ++ after.
Proof.
  induction hay as [|c hay IH]; cbn [str_in].
  - rewrite orb_false_r, prefix_iff. split.
    + intros [rest H]. exists EmptyString, rest. exact H.
    + intros [before [after H]]. destruct before; simpl in H.
      * eauto.
      * discriminate.
  - rewrite orb_true_iff, IH, prefix_iff. split.
    + intros [[rest H] | [before [after H]]].
      * exists EmptyString, rest. exact H.
      * exists (String c before), after. simpl. now rewrite H.
    + intros [before [after H]]. destruct before as [|d before]; simpl in H.
      * left. eauto.
      * right. injection H as _ H. eauto.
Qed.

Lemma ascii_lower_app (a b : string) :
  ascii_lower (a ++ b) = ascii_lower a ++ ascii_lower b.
Proof. induction a; simpl; congruence. Qed.

(** An occurrence of [k] becomes an occurrence of [ascii_lower k]. *)
Lemma str_in_ascii_lower (k s : string) :
  str_in k s = true -> str_in (ascii_lower k) (ascii_lower s) = true.
Proof.
  rewrite !str_in_iff. intros [before [after ->]].
  exists (ascii_lower before), (ascii_lower after).
  now rewrite !ascii_lower_app.
Qed.

Lemma ascii_lower_char_idem (c : ascii) :
  ascii_lower_char (ascii_lower_char c) = ascii_lower_char c.
Proof. destruct c as [[] [] [] [] [] [] [] []]; reflexivity. Qed.

Lemma ascii_lower_idem (s : string) : ascii_lower (ascii_lower s) = ascii_lower s.
Proof.
  induction s as [|c s IH]; cbn [ascii_lower]; [reflexivity|].
  now rewrite ascii_lower_char_idem, IH.
Qed.

Lemma ascii_lower_char_is_ascii (c : ascii) :
  (N_of_ascii (ascii_lower_char c) <? 128)%N = (N_of_ascii c <? 128)%N.
Proof. destruct c as [[] [] [] [] [] [] [] []]; reflexivity. Qed.

(** Folding the case does not take a string into or out of ASCII. *)
Lemma ascii_lower_is_ascii (s : string) : is_ascii (ascii_lower s) = is_ascii s.
Proof.
  induction s as [|c s IH]; cbn [ascii_lower is_ascii]; [reflexivity|].
  now rewrite ascii_lower_char_is_ascii, IH.
Qed.

Lemma str_in_app_l (k a b : string) :
  str_in k a = true -> str_in k (a ++ b) = true.
Proof.
  rewrite !str_in_iff. intros [before [after ->]].
  exists before, (after ++ b). now rewrite !append_assoc.
Qed.

Lemma str_in_app_r (k a b : string) :
  str_in k b = true -> str_in k (a ++ b) = true.
Proof.
  rewrite !str_in_iff. intros [before [after ->]].
  exists (a ++ before), after. now rewrite !append_assoc.
Qed.

(** ASCII case folding has the two properties of [str.lower]. *)
Lemma ascii_lower_in_place : lowers_ascii_in_place ascii_lower.
Proof. intros k s _ H. now apply str_in_ascii_lower. Defined.

Lemma ascii_lower_blind : blind_to_ascii_case ascii_lower.
Proof. intros s. apply ascii_lower_idem. Defined.

End PyStrFacts.

(** ** The auto-responder *)

Module ResponderFacts.
Import PyStr Responder.

Section Lower.

Variable str_lower : string -> string.

Local Abbreviation text_of := (text_of str_lower).
Local Abbreviation generate_ai_response := (generate_ai_response str_lower).

(** The matching of a keyword set, word by word. *)
Lemma matches_api_key text :
  matches API_KEY_WORDS text = str_in "api key" text || str_in "reset key" text.
Proof. unfold matches; simpl. now rewrite orb_false_r. Qed.

Lemma matches_usage text :
  matches USAGE_WORDS text =
  str_in "usage" text || str_in "how many" text || str_in "calls" text.
Proof. unfold matches; simpl. now rewrite orb_false_r, orb_assoc. Qed.

Lemma matches_billing text :
  matches BILLING_WORDS text =
  str_in "bill" text || str_in "charge" text || str_in "invoice" text.
Proof. unfold matches; simpl. now rewrite orb_false_r, orb_assoc. Qed.

Lemma matches_rate_limit text :
  matches RATE_LIMIT_WORDS text =
  str_in "429" text || str_in "rate limit" text || str_in "too many requests" text.
Proof. unfold matches; simpl. now rewrite orb_false_r, orb_assoc. Qed.

(** The function as a first-match lookup in the ordered rule table. *)
Lemma generate_ai_response_rules subject message category :
  generate_ai_response subject message category =
  let text := text_of subject message in
  if matches API_KEY_WORDS text then Some API_KEY_RESPONSE
  else if matches USAGE_WORDS text then Some USAGE_RESPONSE
  else if matches BILLING_WORDS text then Some BILLING_RESPONSE
  else if matches RATE_LIMIT_WORDS text then Some RATE_LIMIT_RESPONSE
  else None.
Proof.
  unfold Responder.generate_ai_response. cbv zeta.
  now rewrite matches_api_key, matches_usage, matches_billing, matches_rate_limit.
Qed.

(** Every canned response is a non-empty string. *)
Lemma generate_ai_response_truthy subject message category m :
  generate_ai_response subject message category = Some m ->
  truthy m = true.
Proof.
  rewrite generate_ai_response_rules. cbv zeta.
  repeat match goal with |- context [if ?b then _ else _] => destruct b end;
    intros H; inversion H; reflexivity.
Qed.

(** C3, as the code has it.  The text that is searched is the lowercased
    [subject ++ " " ++ message]: subject and message joined by one space,
    not their bare concatenation.  (1) If it contains "api key", the reply
    is the key-rotation instructions; (2) so it is whenever the joined
    text before lowercasing, or the subject or the message alone,
    contains "API key" in any casing; (3) if no word of the four keyword
    sets occurs in the text, there is no reply; (4) the sets are tried in
    the order API-key, usage, billing, rate-limit and the first one that
    matches decides.  [str.lower] is any function that lowers ASCII
    characters in place. *)
Theorem generate_ai_response_first_match (subject message category : string) :
  lowers_ascii_in_place str_lower ->
  let text := text_of subject message in
  let reply := generate_ai_response subject message category in
  (str_in "api key" text = true -> reply = Some API_KEY_RESPONSE) /\
  (forall k, ascii_lower k = "api key" ->
     str_in k (subject ++ " " ++ message) = true ->
     reply = Some API_KEY_RESPONSE) /\
  (forall k, ascii_lower k = "api key" ->
     str_in k subject = true \/ str_in k message = true ->
     reply = Some API_KEY_RESPONSE) /\
  (matches API_KEY_WORDS text = false -> matches USAGE_WORDS text = false ->
   matches BILLING_WORDS text = false -> matches RATE_LIMIT_WORDS text = false ->
   reply = None) /\
  (matches API_KEY_WORDS text = true -> reply = Some API_KEY_RESPONSE) /\
  (matches API_KEY_WORDS text = false -> matches USAGE_WORDS text = true ->
   reply = Some USAGE_RESPONSE) /\
  (matches API_KEY_WORDS text = false -> matches USAGE_WORDS text = false ->
   matches BILLING_WORDS text = true -> reply = Some BILLING_RESPONSE) /\
  (matches API_KEY_WORDS text = false -> matches USAGE_WORDS text = false ->
   matches BILLING_WORDS text = false -> matches RATE_LIMIT_WORDS text = true ->
   reply = Some RATE_LIMIT_RESPONSE).
Proof.
  intros Hlower text reply.
  assert (Hkey : str_in "api key" text = true -> reply = Some API_KEY_RESPONSE).
  { intros H. unfold reply. rewrite generate_ai_response_rules. cbv zeta.
    fold text. now rewrite matches_api_key, H. }
  split; [exact Hkey|].
  assert (Hany : forall k, ascii_lower k = "api key" ->
            str_in k (subject ++ " " ++ message) = true ->
            reply = Some API_KEY_RESPONSE).
  { intros k Hk Hin. apply Hkey. unfold text, Responder.text_of. rewrite <- Hk.
    apply Hlower; [|exact Hin].
    rewrite <- PyStrFacts.ascii_lower_is_ascii, Hk. reflexivity. }
  split; [exact Hany|].
  split.
  { intros k Hk [Hin|Hin]; apply (Hany k Hk).
    - now apply PyStrFacts.str_in_app_l.
    - apply PyStrFacts.str_in_app_r. now apply (PyStrFacts.str_in_app_r k " "). }
  unfold reply; rewrite generate_ai_response_rules; cbv zeta; fold text.
  repeat split; intros; repeat match goal with H : _ = _ |- _ => rewrite H end;
    reflexivity.
Qed.

End Lower.

(** C3 as worded, on the bare concatenation of subject and message,
    fails: for the subject "api " and the message "key" the
    lowercased concatenation is "api key", but the text that is searched
    is "api  key", with the separator, and there is no reply. *)
Lemma generate_ai_response_concatenation_counterexample :
  str_in "api key" (Sample.lower ("api " ++ "key")) = true /\
  Responder.text_of Sample.lower "api " "key" = "api  key" /\
  Responder.generate_ai_response Sample.lower "api " "key" "general" = None /\
  Responder.generate_ai_response Sample.lower "api " "key" "general"
    <> Some API_KEY_RESPONSE.
Proof. vm_compute. repeat split. discriminate. Qed.

(** The theorem at work: mixed casing, a ticket no rule answers, and a
    ticket that names three topics at once. *)
Lemma generate_ai_response_first_match_witness :
  Responder.generate_ai_response Sample.lower "Lost my API Key" "please help"
    "general" = Some API_KEY_RESPONSE /\
  Responder.generate_ai_response Sample.lower "Hello" "the dashboard is slow"
    "general" = None /\
  Responder.generate_ai_response Sample.lower "Invoice"
    "too many requests, got a 429 on usage" "billing" = Some USAGE_RESPONSE.
Proof.
  split; [|split].
  - apply (proj1 (proj2 (generate_ai_response_first_match Sample.lower
                           "Lost my API Key" "please help" "general"
                           PyStrFacts.ascii_lower_in_place))
             "API Key"); reflexivity.
  - apply (proj1 (proj2 (proj2 (proj2 (generate_ai_response_first_match
                           Sample.lower "Hello" "the dashboard is slow" "general"
                           PyStrFacts.ascii_lower_in_place)))));
      reflexivity.
  - apply (proj1 (proj2 (proj2 (proj2 (proj2 (proj2
             (generate_ai_response_first_match Sample.lower
                "Invoice" "too many requests, got a 429 on usage" "billing"
                PyStrFacts.ascii_lower_in_place)))))));
      reflexivity.
Defined.

End ResponderFacts.

(** ** Lists as tables *)

Module TableFacts.

Lemma next_rowid_fresh (ids : list Z) (x : Z) :
  In x ids -> x < Sql.next_rowid ids.
Proof.
  unfold Sql.next_rowid. induction ids as [|y ids IH]; cbn [fold_right In].
  - contradiction.
  - intros [->|H]; [|specialize (IH H)]; lia.
Qed.

Lemma next_rowid_not_in (ids : list Z) : ~ In (Sql.next_rowid ids) ids.
Proof. intros H. apply next_rowid_fresh in H. lia. Qed.

Lemma filter_none {R : Type} (p : R -> bool) (l : list R) :
  (forall r, In r l -> p r = false) -> filter p l = [].
Proof.
  induction l as [|x l IH]; simpl; intros H; [reflexivity|].
  rewrite (H x (or_introl eq_refl)). apply IH. intros r Hr. apply H. now right.
Qed.

(** An UPDATE whose WHERE clause selects no row, or only rows that
    already have the new value, leaves the table as it is. *)
Lemma update_noop {R : Type} (p : R -> bool) (g : R -> R) (l : list R) :
  (forall r, In r l -> p r = true -> g r = r) ->
  map (fun r => if p r then g r else r) l = l.
Proof.
  induction l as [|x l IH]; simpl; intros H; [reflexivity|].
  f_equal.
  - destruct (p x) eqn:E; [apply H; auto | reflexivity].
  - apply IH. intros r Hr. apply H. now right.
Qed.

(** A column that is a key determines the row. *)
Lemma key_determines_row {R K : Type} (key : R -> K) (l : list R) (a b : R) :
  NoDup (map key l) -> In a l -> In b l -> key a = key b -> a = b.
Proof.
  induction l as [|x l IH]; simpl; intros Hnd Ha Hb Hk; [contradiction|].
  inversion Hnd as [|? ? Hx Hnd']; subst.
  destruct Ha as [->|Ha], Hb as [->|Hb]; auto.
  - exfalso. apply Hx. rewrite Hk. now apply in_map.
  - exfalso. apply Hx. rewrite <- Hk. now apply in_map.
Qed.

Lemma NoDup_map_filter {R K : Type} (key : R -> K) (p : R -> bool) (l : list R) :
  NoDup (map key l) -> NoDup (map key (filter p l)).
Proof.
  induction l as [|x l IH]; simpl; intros Hnd; [constructor|].
  inversion Hnd as [|? ? Hx Hnd']; subst.
  destruct (p x); simpl; auto.
  constructor; auto.
  intros Hin. apply Hx. apply in_map_iff in Hin as [r [Hr Hin]].
  apply filter_In in Hin as [Hin _]. rewrite <- Hr. now apply in_map.
Qed.

(** Removing the row with a given key from a table that holds it makes
    the table one row shorter. *)
Lemma length_without_key {R : Type} (key : R -> Z) (l : list R) (k : R) :
  NoDup (map key l) -> In k l ->
  S (List.length (filter (fun r => negb (key r =? key k)) l)) = List.length l.
Proof.
  induction l as [|x l IH]; simpl; intros Hnd Hin; [contradiction|].
  inversion Hnd as [|? ? Hx Hnd']; subst.
  destruct Hin as [->|Hin].
  - rewrite Z.eqb_refl. simpl. f_equal.
    assert (E : filter (fun r => negb (key r =? key k)) l = l).
    { clear IH Hnd Hnd'. induction l as [|y l IHl]; simpl; [reflexivity|].
      destruct (key y =? key k) eqn:E; simpl.
      - exfalso. apply Hx. left. now apply Z.eqb_eq.
      - f_equal. apply IHl. intros H. apply Hx. now right. }
    now rewrite E.
  - destruct (key x =? key k) eqn:E; simpl.
    + exfalso. apply Hx. apply Z.eqb_eq in E. rewrite E. now apply in_map.
    + f_equal. now apply IH.
Qed.

Lemma map_key_update {R K : Type} (key : R -> K) (p : R -> bool) (g : R -> R)
    (l : list R) :
  (forall r, key (g r) = key r) ->
  map key (map (fun r => if p r then g r else r) l) = map key l.
Proof.
  intros Hg. rewrite map_map. apply map_ext. intros r.
  destruct (p r); auto.
Qed.

(** ORDER BY returns the rows it was given. *)
Lemma insert_sorted_In {R : Type} (leb : R -> R -> bool) (x y : R) (l : list R) :
  In y (Sql.insert_sorted leb x l) <-> y = x \/ In y l.
Proof.
  induction l as [|z l IH]; simpl.
  - intuition.
  - destruct (leb x z); simpl; [intuition|].
    rewrite IH. intuition.
Qed.

Lemma order_by_In {R : Type} (leb : R -> R -> bool) (y : R) (l : list R) :
  In y (Sql.order_by leb l) <-> In y l.
Proof.
  induction l as [|x l IH]; simpl; [tauto|].
  rewrite insert_sorted_In, IH. intuition.
Qed.

End TableFacts.

(** ** API key manager *)

Section KeyManager.

Variable sha256_hexdigest : string -> string.

Local Abbreviation hash_api_key := (hash_api_key sha256_hexdigest).
Local Abbreviation rotate_api_key := (rotate_api_key sha256_hexdigest).
Local Abbreviation rotated_key := (rotated_key sha256_hexdigest).

(** What one rotation request does, statement by statement. *)
Lemma run_rotate_api_key env request customer_id db :
  run (rotate_api_key env request customer_id) db =
  match Sql.fetchone (Stmt.select_active_key_id customer_id
                        (hash_api_key (APIKeyRotateRequest.old_key request)) db) with
  | None => (inl (HTTPException 404 "API key not found"), db)
  | Some old_key_id =>
      match Stmt.insert_api_key (sql_now env 2) customer_id
              (hash_api_key ("sk_" ++ token_urlsafe env)) (Some "Rotated Key")
              (Stmt.revoke_by_id old_key_id db) with
      | inl e => (inl e, db)
      | inr (db', new_key_id) =>
          (inr (KeyRotated.mk new_key_id ("sk_" ++ token_urlsafe env)
                  (PyDatetime.isoformat (now env)) "Old key has been revoked"),
           db')
      end
  end.
Proof.
  unfold run, rotate_api_key, bind, query, execute, execute_insert, commit,
    close, raise, ret. cbn [working committed].
  destruct (Sql.fetchone _) as [old_key_id|]; [|reflexivity].
  destruct (Stmt.insert_api_key _ _ _ _ _) as [e|[db' new_key_id]]; reflexivity.
Qed.

(** Under the UNIQUE constraint the SELECT of a rotation finds the one
    row that matches. *)
Lemma select_active_key_found customer_id key_hash db k :
  NoDup (map ApiKey.key_hash (api_keys db)) ->
  In k (api_keys db) ->
  ApiKey.customer_id k = customer_id ->
  ApiKey.key_hash k = key_hash ->
  ApiKey.revoked k = false ->
  Sql.fetchone (Stmt.select_active_key_id customer_id key_hash db)
    = Some (ApiKey.id k).
Proof.
  intros Hnd Hin Hc Hh Hr. unfold Stmt.select_active_key_id, Sql.fetchone.
  assert (Hk : In k (filter (Stmt.active_key customer_id key_hash) (api_keys db))).
  { apply filter_In. split; [exact Hin|]. unfold Stmt.active_key.
    now rewrite Hc, Hh, Hr, !String.eqb_refl. }
  destruct (filter _ _) as [|r rows] eqn:E; [contradiction|].
  simpl. f_equal. f_equal.
  assert (Hrin : In r (filter (Stmt.active_key customer_id key_hash) (api_keys db)))
    by (rewrite E; now left).
  apply filter_In in Hrin as [Hrin Hact]. unfold Stmt.active_key in Hact.
  apply andb_true_iff in Hact as [Hact _]. apply andb_true_iff in Hact as [_ Hact].
  apply String.eqb_eq in Hact.
  apply (TableFacts.key_determines_row ApiKey.key_hash (api_keys db)); auto.
  congruence.
Qed.


(** C1.  Let [k] be the non-revoked key of the customer whose digest is
    that of [old_key].  When the rotation succeeds, it returns the new
    plaintext and the id of the new row; api_keys is the old table with
    the row of [k] revoked, followed by exactly one new row, which is the
    customer's and not revoked; every row with the id of [k] is revoked;
    the customer's non-revoked keys are the former ones without [k], and
    the new one, so their number is unchanged; no other table changes. *)
Theorem rotate_api_key_success env request customer_id db k body db' :
  schema_ok db ->
  In k (api_keys db) ->
  ApiKey.customer_id k = customer_id ->
  ApiKey.key_hash k = hash_api_key (APIKeyRotateRequest.old_key request) ->
  ApiKey.revoked k = false ->
  run (rotate_api_key env request customer_id) db = (inr body, db') ->
  let new_row := rotated_key env customer_id db in
  KeyRotated.api_key body = "sk_" ++ token_urlsafe env /\
  KeyRotated.key_id body = ApiKey.id new_row /\
  api_keys db' =
    (map (fun r => if ApiKey.id r =? ApiKey.id k then ApiKey.set_revoked r else r)
         (api_keys db) ++ [new_row])%list /\
  ApiKey.customer_id new_row = customer_id /\
  ApiKey.revoked new_row = false /\
  (forall r, In r (api_keys db) -> ApiKey.id r <> ApiKey.id new_row) /\
  In (ApiKey.set_revoked k) (api_keys db') /\
  (forall r, In r (api_keys db') -> ApiKey.id r = ApiKey.id k ->
     ApiKey.revoked r = true) /\
  active_keys_of customer_id db' =
    (filter (fun r => negb (ApiKey.id r =? ApiKey.id k))
            (active_keys_of customer_id db) ++ [new_row])%list /\
  List.length (active_keys_of customer_id db')
    = List.length (active_keys_of customer_id db) /\
  usage db' = usage db /\ tickets db' = tickets db /\
  ticket_responses db' = ticket_responses db /\ billing db' = billing db.
Proof.
  intros Hok Hin Hc Hh Hrev Hrun new_row.
  destruct Hok as (Hid & Hhash & _).
  rewrite run_rotate_api_key in Hrun.
  rewrite (select_active_key_found customer_id _ db k Hhash Hin Hc Hh Hrev) in Hrun.
  unfold Stmt.insert_api_key in Hrun.
  destruct (existsb _ _); [discriminate|].
  injection Hrun as Hbody Hdb. subst body db'.
  cbn [KeyRotated.api_key KeyRotated.key_id api_keys usage tickets
       ticket_responses billing Stmt.revoke_by_id].
  assert (Hids : map ApiKey.id
                   (map (fun r => if ApiKey.id r =? ApiKey.id k
                                  then ApiKey.set_revoked r else r) (api_keys db))
                 = map ApiKey.id (api_keys db)).
  { apply (TableFacts.map_key_update ApiKey.id). reflexivity. }
  rewrite Hids. fold (rotated_key env customer_id db). fold new_row.
  assert (Hfresh : forall r, In r (api_keys db) -> ApiKey.id r <> ApiKey.id new_row).
  { intros r Hr E. apply (TableFacts.next_rowid_not_in (map ApiKey.id (api_keys db))).
    unfold new_row, rotated_key in E. cbn [ApiKey.id] in E. rewrite <- E.
    now apply in_map. }
  assert (Hact : active_keys_of customer_id
                   (mk_store
                      (map (fun r => if ApiKey.id r =? ApiKey.id k
                                     then ApiKey.set_revoked r else r) (api_keys db)
                       ++ [new_row])%list (usage db) (tickets db)
                      (ticket_responses db) (billing db))
                 = (filter (fun r => negb (ApiKey.id r =? ApiKey.id k))
                           (active_keys_of customer_id db) ++ [new_row])%list).
  { unfold active_keys_of. cbn [api_keys]. rewrite filter_app. f_equal.
    - clear Hin Hids Hfresh Hid Hhash. induction (api_keys db) as [|x l IH];
        [reflexivity|]. cbn [map filter].
      destruct (ApiKey.id x =? ApiKey.id k) eqn:E.
      + cbn [ApiKey.set_revoked ApiKey.customer_id ApiKey.revoked negb].
        rewrite andb_false_r.
        destruct (String.eqb (ApiKey.customer_id x) customer_id && negb (ApiKey.revoked x));
          cbn [filter]; rewrite ?E; cbn [negb]; exact IH.
      + destruct (String.eqb (ApiKey.customer_id x) customer_id && negb (ApiKey.revoked x));
          cbn [filter]; rewrite ?E; cbn [negb]; [f_equal|]; exact IH.
    - unfold new_row, rotated_key. cbn [filter ApiKey.customer_id ApiKey.revoked].
      now rewrite String.eqb_refl. }
  repeat split; auto.
  - apply in_or_app. left.
    apply in_map_iff. exists k. now rewrite Z.eqb_refl.
  - intros r Hr Hrk. apply in_app_or in Hr as [Hr|[<-|[]]].
    + apply in_map_iff in Hr as [x [Hx Hxin]].
      destruct (ApiKey.id x =? ApiKey.id k) eqn:E; subst r; [reflexivity|].
      apply Z.eqb_neq in E. contradiction.
    + exfalso. apply (Hfresh k Hin). now symmetry.
  - transitivity (List.length
                    (filter (fun r => negb (ApiKey.id r =? ApiKey.id k))
                            (active_keys_of customer_id db) ++ [new_row])%list);
      [exact (f_equal (@List.length _) Hact)|].
    rewrite length_app. cbn [List.length].
    assert (Hka : In k (active_keys_of customer_id db)).
    { apply filter_In. split; [exact Hin|].
      now rewrite Hc, Hrev, String.eqb_refl. }
    rewrite <- (TableFacts.length_without_key ApiKey.id
                  (active_keys_of customer_id db) k); [lia| |exact Hka].
    now apply TableFacts.NoDup_map_filter.
Qed.

(** A rotation of a live key with a fresh token does succeed. *)
Lemma rotate_api_key_returns env request customer_id db k :
  schema_ok db ->
  In k (api_keys db) ->
  ApiKey.customer_id k = customer_id ->
  ApiKey.key_hash k = hash_api_key (APIKeyRotateRequest.old_key request) ->
  ApiKey.revoked k = false ->
  (forall r, In r (api_keys db) ->
     ApiKey.key_hash r <> hash_api_key ("sk_" ++ token_urlsafe env)) ->
  exists body db', run (rotate_api_key env request customer_id) db = (inr body, db').
Proof.
  intros (_ & Hhash & _) Hin Hc Hh Hrev Hnew.
  rewrite run_rotate_api_key.
  rewrite (select_active_key_found customer_id _ db k Hhash Hin Hc Hh Hrev).
  unfold Stmt.insert_api_key.
  destruct (existsb _ _) eqn:E; [|eauto].
  exfalso. apply existsb_exists in E as [r [Hr Heq]].
  apply String.eqb_eq in Heq. cbn [Stmt.revoke_by_id api_keys] in Hr.
  apply in_map_iff in Hr as [x [Hx Hxin]].
  apply (Hnew x Hxin). rewrite <- Heq, <- Hx.
  destruct (ApiKey.id x =? ApiKey.id k); reflexivity.
Qed.

(** A rotation that fails, in whatever way, changes nothing: the UPDATE
    that revoked the old key was not committed. *)
Lemma rotate_api_key_all_or_nothing env request customer_id db e db' :
  run (rotate_api_key env request customer_id) db = (inl e, db') -> db' = db.
Proof.
  rewrite run_rotate_api_key.
  destruct (Sql.fetchone _); [|congruence].
  destruct (Stmt.insert_api_key _ _ _ _ _) as [?|[? ?]]; congruence.
Qed.

End KeyManager.

Lemma set_revoked_revoked (r : ApiKey.row) :
  ApiKey.revoked r = true -> ApiKey.set_revoked r = r.
Proof. destruct r; simpl; intros ->; reflexivity. Qed.

Lemma run_revoke_api_key key_id customer_id db :
  run (revoke_api_key key_id customer_id) db =
  if Sql.in_int64 key_id
  then (inr "API key revoked",
        Stmt.revoke_by_id_and_customer key_id customer_id db)
  else (inl OverflowError, db).
Proof.
  unfold run, revoke_api_key, bind, bind_int, execute, commit, close, ret.
  cbn [working committed]. destruct (Sql.in_int64 key_id); reflexivity.
Qed.

(** The UPDATE of a revocation changes nothing when every row it selects
    is revoked already. *)
Lemma revoke_by_id_and_customer_noop key_id customer_id db :
  (forall r, In r (api_keys db) -> ApiKey.id r = key_id ->
     ApiKey.customer_id r = customer_id -> ApiKey.revoked r = true) ->
  Stmt.revoke_by_id_and_customer key_id customer_id db = db.
Proof.
  intros H. unfold Stmt.revoke_by_id_and_customer.
  rewrite TableFacts.update_noop.
  - destruct db; reflexivity.
  - intros r Hr Hsel. apply andb_true_iff in Hsel as [Hid Hc].
    apply set_revoked_revoked. apply H; auto.
    + now apply Z.eqb_eq.
    + now apply String.eqb_eq.
Qed.

(** A key id outside SQLite's INTEGER range cannot be bound to the
    UPDATE: the request ends in OverflowError and changes nothing. *)
Lemma revoke_api_key_out_of_range key_id customer_id db :
  Sql.in_int64 key_id = false ->
  run (revoke_api_key key_id customer_id) db = (inl OverflowError, db).
Proof. intros H. now rewrite run_revoke_api_key, H. Qed.

(** C6, as the code has it.  For a key id that SQLite can store (a
    64-bit integer), revoking returns the success message.  It leaves the
    database as it was when no key has the given id, when the key with
    that id belongs to another customer, and when the customer's key with
    that id is revoked already; and revoking a second time changes
    nothing the first revocation had not changed. *)
Theorem revoke_api_key_noop (key_id : Z) (customer_id : string) (db : Store) :
  Sql.in_int64 key_id = true ->
  let revoke := run (revoke_api_key key_id customer_id) in
  fst (revoke db) = inr "API key revoked" /\
  ((forall r, In r (api_keys db) -> ApiKey.id r <> key_id) ->
   revoke db = (inr "API key revoked", db)) /\
  ((forall r, In r (api_keys db) -> ApiKey.id r = key_id ->
      ApiKey.customer_id r <> customer_id) ->
   revoke db = (inr "API key revoked", db)) /\
  ((forall r, In r (api_keys db) -> ApiKey.id r = key_id ->
      ApiKey.customer_id r = customer_id -> ApiKey.revoked r = true) ->
   revoke db = (inr "API key revoked", db)) /\
  revoke (snd (revoke db)) = revoke db.
Proof.
  intros Hrange revoke. unfold revoke. rewrite !run_revoke_api_key, Hrange.
  cbn [fst snd].
  split; [reflexivity|].
  split; [|split; [|split]].
  - intros H. rewrite revoke_by_id_and_customer_noop; [reflexivity|].
    intros r Hr Hid. now destruct (H r Hr).
  - intros H. rewrite revoke_by_id_and_customer_noop; [reflexivity|].
    intros r Hr Hid Hc. now destruct (H r Hr Hid).
  - intros H. now rewrite revoke_by_id_and_customer_noop.
  - f_equal.
    apply revoke_by_id_and_customer_noop.
    intros r Hr Hid Hc. cbn [Stmt.revoke_by_id_and_customer api_keys] in Hr.
    apply in_map_iff in Hr as [x [Hx Hxin]].
    destruct ((ApiKey.id x =? key_id) &&
              String.eqb (ApiKey.customer_id x) customer_id) eqn:E.
    + now subst r.
    + subst r. rewrite Hc, String.eqb_refl, andb_true_r in E.
      apply Z.eqb_neq in E. contradiction.
Qed.

(** C6 as worded, for every key id, fails: no key of the sample database
    has the id 9223372036854775808, and revoking it does not return the
    success message but ends in OverflowError (status 500); the database
    is unchanged. *)
Lemma revoke_api_key_out_of_range_counterexample :
  (forall r, In r (api_keys Sample.db_keys) -> ApiKey.id r <> Sample.too_big) /\
  run (revoke_api_key Sample.too_big "alice") Sample.db_keys
    = (inl OverflowError, Sample.db_keys) /\
  http_status (fst (run (revoke_api_key Sample.too_big "alice") Sample.db_keys))
    = 500 /\
  fst (run (revoke_api_key Sample.too_big "alice") Sample.db_keys)
    <> inr "API key revoked".
Proof.
  split; [intros r [<-|[<-|[]]]; discriminate|].
  vm_compute. repeat split. discriminate.
Qed.

(** ** Usage reporter *)

Module UsageFacts.

Lemma add_one_day_returns (d : PyDatetime.datetime) :
  PyDatetime.year d < PyDatetime.MAXYEAR ->
  exists tomorrow, PyDatetime.add_one_day d = Some tomorrow.
Proof.
  intros Hy. unfold PyDatetime.add_one_day.
  destruct (_ <? PyDatetime.days_in_month _ _); [eauto|].
  destruct (_ <? 12); [eauto|].
  apply Z.ltb_lt in Hy. rewrite Hy. eauto.
Qed.

(** [+ timedelta(days=1)] and [.replace(hour=0, minute=0, second=0)] both
    leave the microsecond of [datetime.now()] in place. *)
Lemma reset_time_microsecond (d tomorrow : PyDatetime.datetime) :
  PyDatetime.add_one_day d = Some tomorrow ->
  PyDatetime.microsecond (PyDatetime.replace_hms0 tomorrow)
    = PyDatetime.microsecond d.
Proof.
  unfold PyDatetime.add_one_day.
  repeat match goal with |- context [if ?b then _ else _] => destruct b end;
    intros H; inversion H; reflexivity.
Qed.

(** What one usage-stats request does. *)
Lemma run_get_usage_stats env customer_id db :
  run (get_usage_stats env customer_id) db =
  let today := Stmt.count_usage_today (sql_now env 0) customer_id db in
  let this_month := Stmt.count_usage_month (sql_now env 1) customer_id db in
  let all_time := Stmt.count_usage_all customer_id db in
  match PyDatetime.add_one_day (now env) with
  | None => (inl OverflowError, db)
  | Some tomorrow =>
      (inr (UsageStats.mk today this_month all_time (1000 - today)
              (if today >? 0
               then Some (PyDatetime.isoformat (PyDatetime.replace_hms0 tomorrow))
               else None)),
       db)
  end.
Proof.
  unfold run, get_usage_stats, bind, query, close, raise, ret.
  cbn [working committed].
  destruct (PyDatetime.add_one_day (now env)); reflexivity.
Qed.

Lemma count_nonneg {R : Type} (l : list R) : 0 <= Sql.COUNT l.
Proof. unfold Sql.COUNT. lia. Qed.

(** C7.  For a customer without any row in [usage], the statistics are
    today 0, this month 0, all time 0, remaining quota 1000 and no reset
    time.  (The clock is assumed to be before the last year [datetime]
    can represent.) *)
Theorem get_usage_stats_no_events env customer_id db :
  PyDatetime.year (now env) < PyDatetime.MAXYEAR ->
  (forall r, In r (usage db) -> Usage.customer_id r <> customer_id) ->
  run (get_usage_stats env customer_id) db
    = (inr (UsageStats.mk 0 0 0 1000 None), db).
Proof.
  intros Hy Hnone. rewrite run_get_usage_stats. cbv zeta.
  destruct (add_one_day_returns _ Hy) as [tomorrow ->].
  assert (E : Stmt.usage_of customer_id db = []).
  { apply TableFacts.filter_none. intros r Hr.
    apply String.eqb_neq. now apply Hnone. }
  unfold Stmt.count_usage_today, Stmt.count_usage_month, Stmt.count_usage_all.
  rewrite E. reflexivity.
Qed.

(** C10.  The request returns, and the quota it reports is 1000 minus the
    number of the customer's events of today: for more than 1000 events
    it is negative. *)
Theorem get_usage_stats_rate_limit env customer_id db :
  PyDatetime.year (now env) < PyDatetime.MAXYEAR ->
  exists stats,
    run (get_usage_stats env customer_id) db = (inr stats, db) /\
    UsageStats.today stats
      = Stmt.count_usage_today (sql_now env 0) customer_id db /\
    UsageStats.current_rate_limit stats = 1000 - UsageStats.today stats /\
    (1000 < UsageStats.today stats -> UsageStats.current_rate_limit stats < 0).
Proof.
  intros Hy. rewrite run_get_usage_stats. cbv zeta.
  destruct (add_one_day_returns _ Hy) as [tomorrow ->].
  eexists. split; [reflexivity|]. cbn [UsageStats.today UsageStats.current_rate_limit].
  repeat split. lia.
Qed.

(** The reset time is absent exactly when today's count is zero, and
    otherwise it is the day after [datetime.now()] at 00:00:00 plus the
    microseconds of [datetime.now()]. *)
Lemma get_usage_stats_reset env customer_id db stats db' :
  run (get_usage_stats env customer_id) db = (inr stats, db') ->
  (UsageStats.rate_limit_reset stats = None <-> UsageStats.today stats = 0) /\
  (0 < UsageStats.today stats ->
   exists tomorrow,
     PyDatetime.add_one_day (now env) = Some tomorrow /\
     UsageStats.rate_limit_reset stats
       = Some (PyDatetime.isoformat (PyDatetime.replace_hms0 tomorrow)) /\
     PyDatetime.is_midnight (PyDatetime.replace_hms0 tomorrow)
       = (PyDatetime.microsecond (now env) =? 0)).
Proof.
  rewrite run_get_usage_stats. cbv zeta.
  destruct (PyDatetime.add_one_day (now env)) as [tomorrow|] eqn:E; [|discriminate].
  intros H. injection H as <- _.
  cbn [UsageStats.today UsageStats.rate_limit_reset].
  pose proof (count_nonneg
    (filter (Stmt.same_day (sql_now env 0)) (Stmt.usage_of customer_id db))) as Hc.
  fold (Stmt.count_usage_today (sql_now env 0) customer_id db) in Hc.
  split.
  - destruct (Stmt.count_usage_today _ _ _ >? 0) eqn:G.
    + apply Z.gtb_lt in G. split; [discriminate | lia].
    + split; [intros _|reflexivity].
      destruct (Z.gtb_spec (Stmt.count_usage_today (sql_now env 0) customer_id db) 0);
        [discriminate | lia].
  - intros Hpos. exists tomorrow. split; [reflexivity|]. split.
    + destruct (Z.gtb_spec (Stmt.count_usage_today (sql_now env 0) customer_id db) 0);
        [reflexivity | lia].
    + unfold PyDatetime.is_midnight.
      rewrite (reset_time_microsecond _ _ E). reflexivity.
Qed.

End UsageFacts.

(** ** Ticket manager *)

Module TicketFacts.

Section Lower.

Variable str_lower : string -> string.

(** What one create-ticket request does. *)
Lemma run_create_ticket env ticket customer_id db :
  run (create_ticket str_lower env ticket customer_id) db =
  let ai_response :=
    Responder.generate_ai_response str_lower (TicketCreate.subject ticket)
      (TicketCreate.message ticket) (TicketCreate.category ticket) in
  let ticket_id := Sql.next_rowid (map Ticket.id (tickets db)) in
  let row := Ticket.mk ticket_id customer_id (TicketCreate.subject ticket)
               (TicketCreate.message ticket) (TicketCreate.category ticket)
               "open" false (sql_now env 0) None in
  let db1 := mk_store (api_keys db) (usage db) (tickets db ++ [row])%list
               (ticket_responses db) (billing db) in
  (inr (TicketCreated.mk ticket_id "open" (is_not_None ai_response)
          "Ticket created successfully"),
   match ai_response with
   | Some m =>
       if PyStr.truthy m then
         match Stmt.insert_ticket_response (sql_now env 1) ticket_id false m db1 with
         | inr (db2, _) => Stmt.mark_ai_responded ticket_id db2
         | inl _ => db1
         end
       else db1
   | None => db1
   end).
Proof.
  unfold run, create_ticket, bind, execute, execute_insert, commit, close, ret.
  cbn [working committed Stmt.insert_ticket].
  destruct (Responder.generate_ai_response _ _ _ _) as [m|]; [|reflexivity].
  destruct (PyStr.truthy m); reflexivity.
Qed.

(** The UPDATE that flags the new ticket touches that ticket only. *)
Lemma mark_new_ticket (rows : list Ticket.row) (row : Ticket.row) :
  Ticket.id row = Sql.next_rowid (map Ticket.id rows) ->
  map (fun r => if Ticket.id r =? Ticket.id row
                then Ticket.set_ai_responded r else r) (rows ++ [row])%list
  = (rows ++ [Ticket.set_ai_responded row])%list.
Proof.
  intros Hid. rewrite map_app. cbn [map]. rewrite Z.eqb_refl. f_equal.
  apply (TableFacts.update_noop (fun r => Ticket.id r =? Ticket.id row)).
  intros r Hr E. apply Z.eqb_eq in E. exfalso.
  apply (TableFacts.next_rowid_not_in (map Ticket.id rows)).
  rewrite <- Hid, <- E. now apply in_map.
Qed.

(** The tables after a create-ticket request. *)
Lemma create_ticket_tables env ticket customer_id db :
  let ai_response :=
    Responder.generate_ai_response str_lower (TicketCreate.subject ticket)
      (TicketCreate.message ticket) (TicketCreate.category ticket) in
  let ticket_id := Sql.next_rowid (map Ticket.id (tickets db)) in
  let response_id :=
    Sql.next_rowid (map TicketResponse.id (ticket_responses db)) in
  exists db',
    run (create_ticket str_lower env ticket customer_id) db
      = (inr (TicketCreated.mk ticket_id "open" (is_not_None ai_response)
                "Ticket created successfully"), db') /\
    tickets db' =
      (tickets db ++
       [Ticket.mk ticket_id customer_id (TicketCreate.subject ticket)
          (TicketCreate.message ticket) (TicketCreate.category ticket)
          "open" (is_not_None ai_response) (sql_now env 0) None])%list /\
    ticket_responses db' =
      (ticket_responses db ++
       match ai_response with
       | Some m => [TicketResponse.mk response_id ticket_id false m (sql_now env 1)]
       | None => []
       end)%list /\
    api_keys db' = api_keys db /\ usage db' = usage db /\ billing db' = billing db.
Proof.
  intros ai_response ticket_id response_id.
  rewrite run_create_ticket. cbv zeta. fold ai_response. fold ticket_id.
  eexists. split; [reflexivity|].
  destruct ai_response as [m|] eqn:Hai.
  - rewrite (ResponderFacts.generate_ai_response_truthy _ _ _ _ _ Hai).
    cbn [Stmt.insert_ticket_response Stmt.mark_ai_responded tickets
         ticket_responses api_keys usage billing is_not_None].
    fold response_id.
    repeat split.
    set (row := Ticket.mk ticket_id customer_id _ _ _ "open" false _ None).
    change ticket_id with (Ticket.id row) at 1.
    rewrite mark_new_ticket; reflexivity.
  - cbn [tickets ticket_responses api_keys usage billing is_not_None].
    rewrite app_nil_r. repeat split.
Qed.


End Lower.

Lemma run_list_tickets customer_id db :
  run (list_tickets customer_id) db
    = (inr (map ticket_info (Stmt.select_tickets_of customer_id db)), db).
Proof. reflexivity. Qed.

Lemma run_get_ticket_responses ticket_id customer_id db :
  run (get_ticket_responses ticket_id customer_id) db =
  if Sql.in_int64 ticket_id then
    match Sql.fetchone (Stmt.select_owned_ticket ticket_id customer_id db) with
    | None => (inl (HTTPException 404 "Ticket not found"), db)
    | Some _ =>
        (inr (map response_info (Stmt.select_responses_of ticket_id db)), db)
    end
  else (inl OverflowError, db).
Proof.
  unfold run, get_ticket_responses, bind, bind_int, query, close, raise, ret.
  cbn [working committed].
  destruct (Sql.in_int64 ticket_id); [|reflexivity].
  destruct (Sql.fetchone _); reflexivity.
Qed.

(** A ticket id outside SQLite's INTEGER range cannot be bound to the
    SELECT: the request ends in OverflowError and returns nothing. *)
Lemma get_ticket_responses_out_of_range ticket_id customer_id db :
  Sql.in_int64 ticket_id = false ->
  run (get_ticket_responses ticket_id customer_id) db = (inl OverflowError, db).
Proof. intros H. now rewrite run_get_ticket_responses, H. Qed.

Lemma select_tickets_of_In customer_id db r :
  In r (Stmt.select_tickets_of customer_id db) <->
  In r (tickets db) /\ Ticket.customer_id r = customer_id.
Proof.
  unfold Stmt.select_tickets_of.
  rewrite TableFacts.order_by_In, filter_In, String.eqb_eq. reflexivity.
Qed.

Lemma select_responses_of_In ticket_id db r :
  In r (Stmt.select_responses_of ticket_id db) <->
  In r (ticket_responses db) /\ TicketResponse.ticket_id r = ticket_id.
Proof.
  unfold Stmt.select_responses_of.
  rewrite TableFacts.order_by_In, filter_In, Z.eqb_eq. reflexivity.
Qed.

(** The ownership check fails when no ticket with that id is the
    caller's. *)
Lemma get_ticket_responses_not_owned ticket_id customer_id db :
  Sql.in_int64 ticket_id = true ->
  (forall t, In t (tickets db) -> Ticket.id t = ticket_id ->
     Ticket.customer_id t <> customer_id) ->
  run (get_ticket_responses ticket_id customer_id) db
    = (inl (HTTPException 404 "Ticket not found"), db).
Proof.
  intros Hrange H. rewrite run_get_ticket_responses, Hrange.
  unfold Stmt.select_owned_ticket.
  rewrite TableFacts.filter_none; [reflexivity|].
  intros t Ht. unfold Stmt.owned_ticket.
  destruct (Z.eqb_spec (Ticket.id t) ticket_id) as [Hid|]; [|reflexivity].
  apply String.eqb_neq. now apply H.
Qed.

(** C5, as the code has it.  For two different customers A and B: the
    tickets listed for A are rows of [tickets] with customer id A, and
    none of B's tickets is among them; asking as A for the responses of a
    ticket id that SQLite can store and that no ticket has, or of a
    ticket of B, ends in HTTPException 404; and when such a request of A
    returns responses, they are rows whose ticket is one of A's tickets
    and none of B's. *)
Theorem tickets_scoped_to_customer (A B : string) (db : Store) :
  A <> B ->
  schema_ok db ->
  (exists rows,
     run (list_tickets A) db = (inr (map ticket_info rows), db) /\
     (forall r, In r rows -> In r (tickets db) /\ Ticket.customer_id r = A) /\
     (forall r, In r (tickets db) -> Ticket.customer_id r = B -> ~ In r rows)) /\
  (forall ticket_id,
     Sql.in_int64 ticket_id = true ->
     (forall t, In t (tickets db) -> Ticket.id t <> ticket_id) ->
     run (get_ticket_responses ticket_id A) db
       = (inl (HTTPException 404 "Ticket not found"), db)) /\
  (forall t, In t (tickets db) -> Ticket.customer_id t = B ->
     Sql.in_int64 (Ticket.id t) = true ->
     run (get_ticket_responses (Ticket.id t) A) db
       = (inl (HTTPException 404 "Ticket not found"), db)) /\
  (forall ticket_id body db',
     run (get_ticket_responses ticket_id A) db = (inr body, db') ->
     exists t rows,
       In t (tickets db) /\ Ticket.id t = ticket_id /\
       Ticket.customer_id t = A /\
       body = map response_info rows /\
       forall r, In r rows ->
         In r (ticket_responses db) /\
         TicketResponse.ticket_id r = ticket_id /\
         forall t', In t' (tickets db) -> Ticket.customer_id t' = B ->
                    TicketResponse.ticket_id r <> Ticket.id t').
Proof.
  intros HAB (_ & _ & _ & Hid & _).
  split; [|split; [|split]].
  - exists (Stmt.select_tickets_of A db). split; [apply run_list_tickets|].
    split.
    + intros r Hr. now apply select_tickets_of_In.
    + intros r _ HB Hr. apply select_tickets_of_In in Hr as [_ HA]. congruence.
  - intros ticket_id Hrange Hnone. apply get_ticket_responses_not_owned; auto.
    intros t Ht E. now destruct (Hnone t Ht).
  - intros t Ht HB Hrange. apply get_ticket_responses_not_owned; auto.
    intros t' Ht' E HA.
    assert (t' = t) by (apply (TableFacts.key_determines_row Ticket.id (tickets db)); auto).
    congruence.
  - intros ticket_id body db'. rewrite run_get_ticket_responses.
    destruct (Sql.in_int64 ticket_id); [|discriminate].
    unfold Stmt.select_owned_ticket, Sql.fetchone.
    destruct (filter _ _) as [|t rest] eqn:E; [discriminate|].
    cbn [map hd_error]. intros H. injection H as <- _.
    assert (Ht : In t (filter (Stmt.owned_ticket ticket_id A) (tickets db)))
      by (rewrite E; now left).
    apply filter_In in Ht as [Ht Hown]. unfold Stmt.owned_ticket in Hown.
    apply andb_true_iff in Hown as [Htid HA].
    apply Z.eqb_eq in Htid. apply String.eqb_eq in HA.
    exists t, (Stmt.select_responses_of ticket_id db).
    repeat split; auto.
    + now apply select_responses_of_In in H.
    + now apply select_responses_of_In in H.
    + intros t' Ht' HB Eq.
      apply select_responses_of_In in H as [_ Hr].
      assert (t' = t).
      { apply (TableFacts.key_determines_row Ticket.id (tickets db)); auto.
        congruence. }
      congruence.
Qed.

(** C5 as worded, for every ticket id, fails: no ticket of the sample
    database has the id 9223372036854775808, and asking for its responses
    does not end in 404 but in OverflowError (status 500); nothing is
    returned and the database is unchanged. *)
Lemma get_ticket_responses_out_of_range_counterexample :
  (forall t, In t (tickets Sample.db_tickets) -> Ticket.id t <> Sample.too_big) /\
  run (get_ticket_responses Sample.too_big "alice") Sample.db_tickets
    = (inl OverflowError, Sample.db_tickets) /\
  http_status
    (fst (run (get_ticket_responses Sample.too_big "alice") Sample.db_tickets))
    = 500 /\
  fst (run (get_ticket_responses Sample.too_big "alice") Sample.db_tickets)
    <> inl (HTTPException 404 "Ticket not found").
Proof.
  split; [intros t [<-|[<-|[]]]; discriminate|].
  vm_compute. repeat split. discriminate.
Qed.

End TicketFacts.

(** ** The identity header *)

Section Identity.

Variable sha256_hexdigest : string -> string.
Variable str_lower : string -> string.

(** C9.  On every route that depends on [verify_customer], a request
    without the X-Customer-ID header is answered by FastAPI's validation
    error (status 422) and not by 401 Unauthorized; the handler does not
    run and the database is untouched. *)
Theorem absent_header_is_validation_error (env : Env)
    (request : APIKeyRotateRequest.t) (key_id : Z) (ticket : TicketCreate.t)
    (ticket_id : Z) (db : Store) :
  POST_keys_rotate sha256_hexdigest env None request db
    = (inl RequestValidationError, db) /\
  GET_keys_list None db = (inl RequestValidationError, db) /\
  DELETE_keys None key_id db = (inl RequestValidationError, db) /\
  GET_usage_stats env None db = (inl RequestValidationError, db) /\
  GET_billing_history None db = (inl RequestValidationError, db) /\
  POST_tickets_create str_lower env None ticket db = (inl RequestValidationError, db) /\
  GET_tickets_list None db = (inl RequestValidationError, db) /\
  GET_tickets_responses None ticket_id db = (inl RequestValidationError, db) /\
  http_status (fst (GET_keys_list None db)) = 422.
Proof. repeat split. Qed.

(** With the header present and empty, the body of [verify_customer]
    runs and raises 401 on each of these routes. *)
Lemma empty_header_is_unauthorized (env : Env)
    (request : APIKeyRotateRequest.t) (key_id : Z) (ticket : TicketCreate.t)
    (ticket_id : Z) (db : Store) :
  let unauthorized := HTTPException 401 "Customer ID required" in
  POST_keys_rotate sha256_hexdigest env (Some "") request db
    = (inl unauthorized, db) /\
  GET_keys_list (Some "") db = (inl unauthorized, db) /\
  DELETE_keys (Some "") key_id db = (inl unauthorized, db) /\
  GET_usage_stats env (Some "") db = (inl unauthorized, db) /\
  GET_billing_history (Some "") db = (inl unauthorized, db) /\
  POST_tickets_create str_lower env (Some "") ticket db = (inl unauthorized, db) /\
  GET_tickets_list (Some "") db = (inl unauthorized, db) /\
  GET_tickets_responses (Some "") ticket_id db = (inl unauthorized, db) /\
  http_status (fst (GET_keys_list (Some "") db)) = 401.
Proof. repeat split. Qed.

(** With a non-empty header the handler runs for that customer. *)
Lemma present_header_runs_handler {A : Type} (customer_id : string)
    (h : string -> Handler A) :
  PyStr.truthy customer_id = true ->
  Depends_verify_customer (Some customer_id) h = h customer_id.
Proof.
  intros H. unfold Depends_verify_customer, verify_customer. now rewrite H.
Qed.

End Identity.

(** ** Concrete runs *)

Module Runs.
Import Sample.

(** C8.  At 10:30:45.123456 on 2024-01-15, with one event today, the
    reset time reported is 00:00:00.123456 of the next day: the
    microseconds of the clock are still there, so it is not the next
    midnight, 2024-01-16T00:00:00. *)
Theorem get_usage_stats_reset_keeps_microseconds :
  run (get_usage_stats env "alice") db_usage
    = (inr (UsageStats.mk 1 1 1 999 (Some "2024-01-16T00:00:00.123456")),
       db_usage) /\
  option_map PyDatetime.isoformat (next_midnight (now env))
    = Some "2024-01-16T00:00:00" /\
  UsageStats.rate_limit_reset (UsageStats.mk 1 1 1 999
                                 (Some "2024-01-16T00:00:00.123456"))
    <> option_map PyDatetime.isoformat (next_midnight (now env)).
Proof.
  split; [vm_compute; reflexivity|].
  split; [vm_compute; reflexivity|].
  vm_compute. discriminate.
Qed.

(** With 1001 events today the quota shown is -1. *)
Example get_usage_stats_heavy :
  option_map UsageStats.current_rate_limit
    (match fst (run (get_usage_stats env "alice") db_heavy) with
     | inr stats => Some stats
     | inl _ => None
     end) = Some (-1).
Proof. vm_compute. reflexivity. Qed.

(** The end-to-end case of the specification: a ticket about a key reset
    gets one non-agent reply. *)
Example create_ticket_then_responses :
  let created := POST_tickets_create lower env (Some "alice")
                   (TicketCreate.mk "Need to reset key" "help" "general")
                   empty_store in
  fst created = inr (TicketCreated.mk 1 "open" true "Ticket created successfully") /\
  fst (GET_tickets_responses (Some "alice") 1 (snd created))
    = inr [ResponseInfo.mk false Responder.API_KEY_RESPONSE "2024-01-15 10:30:45"] /\
  PyStr.str_in "Rotate Key" Responder.API_KEY_RESPONSE = true.
Proof. vm_compute. repeat split. Qed.

(** Rotating a key a second time: the old key is revoked by then, and
    the request ends in 404 with nothing changed. *)
Example rotate_revoked_key_not_found :
  run (rotate_api_key digest env rotate_request "alice") db_rotated
    = (inl (HTTPException 404 "API key not found"), db_rotated).
Proof. vm_compute. reflexivity. Qed.

(** A rotation whose new token collides with a stored digest fails on the
    UNIQUE constraint, and the old key is not revoked. *)
Example rotate_collision_rolls_back :
  run (rotate_api_key digest (mk_env (fun _ => clock) (now env) "bob")
         rotate_request "alice") db_keys
    = (inl IntegrityError, db_keys).
Proof. vm_compute. reflexivity. Qed.

(** The separator between subject and message is part of the text. *)
Example generate_ai_response_separator :
  Responder.generate_ai_response lower "api" "key" "general"
    = Some Responder.API_KEY_RESPONSE /\
  Responder.generate_ai_response lower "api " "key" "general" = None.
Proof. vm_compute. split; reflexivity. Qed.

End Runs.

(** ** The constraints of the schema are kept by every request *)

Section Schema.

Variable sha256_hexdigest : string -> string.
Variable str_lower : string -> string.

Lemma NoDup_snoc {K : Type} (l : list K) (x : K) :
  NoDup l -> ~ In x l -> NoDup (l ++ [x])%list.
Proof.
  induction l as [|y l IH]; simpl; intros Hnd Hx.
  - constructor; [tauto | constructor].
  - inversion Hnd as [|? ? Hy Hnd']; subst. constructor.
    + intros H. apply in_app_or in H as [H|[H|[]]]; [tauto|].
      apply Hx. now left.
    + apply IH; tauto.
Qed.

Lemma schema_ok_empty : schema_ok empty_store.
Proof. repeat split; constructor. Qed.

Lemma insert_api_key_schema ts customer_id key_hash name db db' rowid :
  schema_ok db ->
  Stmt.insert_api_key ts customer_id key_hash name db = inr (db', rowid) ->
  schema_ok db'.
Proof.
  intros (Hid & Hh & Hrest). unfold Stmt.insert_api_key.
  destruct (existsb _ _) eqn:E; [discriminate|].
  intros H. injection H as <- _.
  unfold schema_ok. cbn [api_keys usage tickets ticket_responses billing].
  rewrite !map_app. cbn [map ApiKey.id ApiKey.key_hash].
  split; [|split; [|exact Hrest]].
  - apply NoDup_snoc; [exact Hid | apply TableFacts.next_rowid_not_in].
  - apply NoDup_snoc; [exact Hh|].
    intros Hin. apply in_map_iff in Hin as [r [Hr Hin]].
    assert (existsb (fun r => String.eqb (ApiKey.key_hash r) key_hash)
                    (api_keys db) = true); [|congruence].
    apply existsb_exists. exists r. split; [exact Hin|].
    now apply String.eqb_eq.
Qed.

Lemma revoke_by_id_schema key_id db :
  schema_ok db -> schema_ok (Stmt.revoke_by_id key_id db).
Proof.
  intros (Hid & Hh & Hrest). unfold schema_ok, Stmt.revoke_by_id.
  cbn [api_keys usage tickets ticket_responses billing].
  rewrite (TableFacts.map_key_update ApiKey.id), (TableFacts.map_key_update ApiKey.key_hash);
    auto.
Qed.

Lemma revoke_by_id_and_customer_schema key_id customer_id db :
  schema_ok db -> schema_ok (Stmt.revoke_by_id_and_customer key_id customer_id db).
Proof.
  intros (Hid & Hh & Hrest). unfold schema_ok, Stmt.revoke_by_id_and_customer.
  cbn [api_keys usage tickets ticket_responses billing].
  rewrite (TableFacts.map_key_update ApiKey.id), (TableFacts.map_key_update ApiKey.key_hash);
    auto.
Qed.

Lemma create_api_key_schema env request db :
  schema_ok db ->
  schema_ok (snd (run (create_api_key sha256_hexdigest env request) db)).
Proof.
  intros Hok. unfold run, create_api_key, bind, execute_insert, commit, close, ret.
  cbn [working committed].
  destruct (Stmt.insert_api_key _ _ _ _ _) as [e|[db' rowid]] eqn:E; cbn [snd committed].
  - exact Hok.
  - eapply insert_api_key_schema; eauto.
Qed.

Lemma rotate_api_key_schema env request customer_id db :
  schema_ok db ->
  schema_ok (snd (run (rotate_api_key sha256_hexdigest env request customer_id) db)).
Proof.
  intros Hok. rewrite run_rotate_api_key.
  destruct (Sql.fetchone _) as [old_key_id|]; [|exact Hok].
  destruct (Stmt.insert_api_key _ _ _ _ _) as [e|[db' rowid]] eqn:E; [exact Hok|].
  cbn [snd]. eapply insert_api_key_schema; [|exact E].
  now apply revoke_by_id_schema.
Qed.

Lemma revoke_api_key_schema key_id customer_id db :
  schema_ok db -> schema_ok (snd (run (revoke_api_key key_id customer_id) db)).
Proof.
  intros Hok. rewrite run_revoke_api_key.
  destruct (Sql.in_int64 key_id); cbn [snd]; [|exact Hok].
  now apply revoke_by_id_and_customer_schema.
Qed.

Lemma create_ticket_schema env ticket customer_id db :
  schema_ok db -> schema_ok (snd (run (create_ticket str_lower env ticket customer_id) db)).
Proof.
  intros (Hk & Hh & Hu & Ht & Hr & Hb).
  destruct (TicketFacts.create_ticket_tables str_lower env ticket customer_id db)
    as (db' & Hrun & Htk & Hrs & Hak & Hus & Hbi).
  rewrite Hrun. cbn [snd]. unfold schema_ok.
  rewrite Hak, Hus, Hbi, Htk, Hrs, !map_app.
  repeat split; auto.
  - apply NoDup_snoc; [exact Ht | apply TableFacts.next_rowid_not_in].
  - destruct (Responder.generate_ai_response _ _ _ _); cbn [map].
    + apply NoDup_snoc; [exact Hr | apply TableFacts.next_rowid_not_in].
    + now rewrite app_nil_r.
Qed.

End Schema.

(** ** The theorems on the sample data *)

Module Witness.
Import Sample.

Ltac nodup :=
  repeat (constructor; [simpl; intuition discriminate|]); constructor.

Lemma schema_ok_db_keys : schema_ok db_keys.
Proof. repeat split; nodup. Defined.

Lemma schema_ok_db_tickets : schema_ok db_tickets.
Proof. repeat split; nodup. Defined.

(** Alice rotates her key "sk_old". *)
Lemma rotate_api_key_success_witness :
  run (rotate_api_key digest env rotate_request "alice") db_keys
    = (inr rotated_body, db_rotated) /\
  KeyRotated.api_key rotated_body = "sk_Zm9vYmFy" /\
  In (ApiKey.set_revoked alice_key) (api_keys db_rotated) /\
  List.length (active_keys_of "alice" db_rotated)
    = List.length (active_keys_of "alice" db_keys).
Proof.
  assert (E : run (rotate_api_key digest env rotate_request "alice") db_keys
              = (inr rotated_body, db_rotated)) by (vm_compute; reflexivity).
  split; [exact E|].
  destruct (rotate_api_key_success digest env rotate_request "alice" db_keys
              alice_key rotated_body db_rotated schema_ok_db_keys
              (or_introl eq_refl) eq_refl eq_refl eq_refl E)
    as (Hkey & _ & _ & _ & _ & _ & Hold & _ & _ & Hlen & _).
  split; [exact Hkey|]. split; [exact Hold | exact Hlen].
Defined.


(** Bob revokes key 1, which is alice's. *)
Lemma revoke_api_key_noop_witness :
  run (revoke_api_key 1 "bob") db_keys = (inr "API key revoked", db_keys).
Proof.
  apply (proj1 (proj2 (proj2 (revoke_api_key_noop 1 "bob" db_keys eq_refl)))).
  intros r [<-|[<-|[]]] Hid; vm_compute in Hid; discriminate.
Defined.

(** Alice asks for the responses of bob's ticket 2 and of ticket 99. *)
Lemma tickets_scoped_to_customer_witness :
  run (get_ticket_responses 2 "alice") db_tickets
    = (inl (HTTPException 404 "Ticket not found"), db_tickets) /\
  run (get_ticket_responses 99 "alice") db_tickets
    = (inl (HTTPException 404 "Ticket not found"), db_tickets).
Proof.
  destruct (TicketFacts.tickets_scoped_to_customer "alice" "bob" db_tickets
              ltac:(discriminate) schema_ok_db_tickets)
    as (_ & Hnone & Hforeign & _).
  split.
  - apply (Hforeign bob_ticket);
      [right; left; reflexivity | reflexivity | reflexivity].
  - apply Hnone; [reflexivity|]. intros t [<-|[<-|[]]]; discriminate.
Defined.

(** Bob has no usage event. *)
Lemma get_usage_stats_no_events_witness :
  run (get_usage_stats env "bob") db_usage
    = (inr (UsageStats.mk 0 0 0 1000 None), db_usage).
Proof.
  apply (UsageFacts.get_usage_stats_no_events env "bob" db_usage).
  - reflexivity.
  - intros r [<-|[]]; discriminate.
Defined.

(** Alice has 1001 events today. *)
Lemma get_usage_stats_rate_limit_witness :
  exists stats,
    run (get_usage_stats env "alice") db_heavy = (inr stats, db_heavy) /\
    UsageStats.today stats
      = Stmt.count_usage_today (sql_now env 0) "alice" db_heavy /\
    UsageStats.current_rate_limit stats = 1000 - UsageStats.today stats /\
    (1000 < UsageStats.today stats -> UsageStats.current_rate_limit stats < 0).
Proof.
  apply (UsageFacts.get_usage_stats_rate_limit env "alice" db_heavy).
  reflexivity.
Defined.

End Witness.

(* ================================================================= *)
(** * Further properties of the handlers *)

(** ** ORDER BY *)

Module OrderFacts.

Lemma lex_leb_total (a b : list Z) :
  Sql.lex_leb a b = true \/ Sql.lex_leb b a = true.
Proof.
  revert b; induction a as [|x a IH]; intros b; [now left|].
  destruct b as [|y b]; [now right|]. cbn [Sql.lex_leb].
  destruct (Z.lt_trichotomy x y) as [H|[H|H]].
  - left. apply Z.ltb_lt in H. now rewrite H.
  - subst y. rewrite Z.ltb_irrefl, Z.eqb_refl. cbn [orb andb]. apply IH.
  - right. apply Z.ltb_lt in H. now rewrite H.
Qed.

(** LIMIT keeps rows of its input. *)
Lemma limit_In {R : Type} (n : nat) (l : list R) (x : R) :
  In x (firstn n l) -> In x l.
Proof.
  revert l; induction n as [|n IH]; intros [|y l]; cbn [firstn In]; try tauto.
  intros [H|H]; [now left | right; now apply IH].
Qed.

Lemma ts_leb_total (a b : Sql.timestamp) :
  Sql.ts_leb a b = true \/ Sql.ts_leb b a = true.
Proof. apply lex_leb_total. Qed.

Section Sorting.
Context {R : Type} (leb : R -> R -> bool).
Hypothesis leb_total : forall a b, leb a b = true \/ leb b a = true.

Lemma insert_sorted_HdRel (x y : R) (l : list R) :
  leb y x = true ->
  HdRel (fun a b => leb a b = true) y l ->
  HdRel (fun a b => leb a b = true) y (Sql.insert_sorted leb x l).
Proof.
  intros Hyx Hl. destruct l as [|z l]; cbn [Sql.insert_sorted].
  - now constructor.
  - destruct (leb x z); constructor; auto. now inversion Hl.
Qed.

Lemma insert_sorted_Sorted (x : R) (l : list R) :
  Sorted (fun a b => leb a b = true) l ->
  Sorted (fun a b => leb a b = true) (Sql.insert_sorted leb x l).
Proof.
  induction l as [|y l IH]; cbn [Sql.insert_sorted]; intros Hs.
  - repeat constructor.
  - destruct (leb x y) eqn:E.
    + constructor; [exact Hs | now constructor].
    + inversion Hs as [|? ? Hs' Hhd]; subst. constructor; [now apply IH|].
      apply insert_sorted_HdRel; [|exact Hhd].
      destruct (leb_total x y) as [H|H]; congruence.
Qed.

Lemma order_by_Sorted (l : list R) :
  Sorted (fun a b => leb a b = true) (Sql.order_by leb l).
Proof.
  induction l as [|x l IH]; cbn [Sql.order_by]; [constructor|].
  now apply insert_sorted_Sorted.
Qed.

Lemma insert_sorted_Permutation (x : R) (l : list R) :
  Permutation (Sql.insert_sorted leb x l) (x :: l).
Proof.
  induction l as [|y l IH]; cbn [Sql.insert_sorted]; [reflexivity|].
  destruct (leb x y); [reflexivity|].
  rewrite IH. apply perm_swap.
Qed.

Lemma order_by_Permutation (l : list R) :
  Permutation (Sql.order_by leb l) l.
Proof.
  induction l as [|x l IH]; cbn [Sql.order_by]; [reflexivity|].
  rewrite insert_sorted_Permutation. now constructor.
Qed.

End Sorting.

End OrderFacts.

(** ** Listings *)

Module ListingFacts.

(** X1.  The key listing of a customer shows each of the customer's key
    rows once and no other row, the most recently created first; the
    database is not changed. *)
Theorem list_api_keys_own_keys_newest_first (customer_id : string) (db : Store) :
  exists rows,
    run (list_api_keys customer_id) db = (inr (map key_info rows), db) /\
    Permutation rows
      (filter (fun r => String.eqb (ApiKey.customer_id r) customer_id)
              (api_keys db)) /\
    (forall r, In r rows <->
               In r (api_keys db) /\ ApiKey.customer_id r = customer_id) /\
    newest_first ApiKey.created_at rows.
Proof.
  exists (Stmt.select_keys_of customer_id db).
  split; [reflexivity|]. unfold Stmt.select_keys_of.
  split; [apply OrderFacts.order_by_Permutation|].
  split.
  - intros r. rewrite TableFacts.order_by_In, filter_In, String.eqb_eq. reflexivity.
  - unfold newest_first.
    apply (OrderFacts.order_by_Sorted
             (fun a b => Sql.ts_leb (ApiKey.created_at b) (ApiKey.created_at a))).
    intros a b. apply OrderFacts.ts_leb_total.
Qed.

(** X2.  The billing history of a customer is the first 12 of the
    customer's billing rows taken newest first: at most 12 entries, each
    made from a billing row of that customer, and no entry has an empty
    description (a missing or empty one reads "API Usage"); the database
    is not changed. *)
Theorem get_billing_history_twelve_newest (customer_id : string) (db : Store) :
  exists sorted,
    Permutation sorted
      (filter (fun r => String.eqb (Billing.customer_id r) customer_id)
              (billing db)) /\
    newest_first Billing.created_at sorted /\
    run (get_billing_history customer_id) db
      = (inr (map billing_entry (firstn 12 sorted)), db) /\
    (List.length (firstn 12 sorted) <= 12)%nat /\
    (forall r, In r (firstn 12 sorted) ->
               In r (billing db) /\ Billing.customer_id r = customer_id) /\
    (forall e, In e (map billing_entry (firstn 12 sorted)) ->
               PyStr.truthy (BillingHistory.description e) = true).
Proof.
  exists (Sql.order_by
            (fun a b => Sql.ts_leb (Billing.created_at b) (Billing.created_at a))
            (filter (fun r => String.eqb (Billing.customer_id r) customer_id)
                    (billing db))).
  split; [apply OrderFacts.order_by_Permutation|].
  split.
  { unfold newest_first.
    apply (OrderFacts.order_by_Sorted
             (fun a b => Sql.ts_leb (Billing.created_at b) (Billing.created_at a))).
    intros a b. apply OrderFacts.ts_leb_total. }
  split; [reflexivity|].
  split; [apply firstn_le_length|].
  split.
  - intros r Hr. apply OrderFacts.limit_In in Hr.
    apply TableFacts.order_by_In in Hr. apply filter_In in Hr as [Hin Hc].
    apply String.eqb_eq in Hc. auto.
  - intros e He. apply in_map_iff in He as [r [<- _]].
    cbn [billing_entry BillingHistory.description]. unfold description_or_default.
    destruct (Billing.description r) as [d|]; [|reflexivity].
    destruct (PyStr.truthy d) eqn:E; [exact E | reflexivity].
Qed.

(** X3.  The five reading handlers leave the database exactly as they
    found it, whatever they return. *)
Theorem reading_handlers_change_nothing (env : Env) (customer_id : string)
    (ticket_id : Z) (db : Store) :
  snd (run (list_api_keys customer_id) db) = db /\
  snd (run (get_usage_stats env customer_id) db) = db /\
  snd (run (get_billing_history customer_id) db) = db /\
  snd (run (list_tickets customer_id) db) = db /\
  snd (run (get_ticket_responses ticket_id customer_id) db) = db.
Proof.
  repeat split.
  - rewrite UsageFacts.run_get_usage_stats. cbv zeta.
    destruct (PyDatetime.add_one_day (now env)); reflexivity.
  - rewrite TicketFacts.run_get_ticket_responses.
    destruct (Sql.in_int64 ticket_id); [|reflexivity].
    destruct (Sql.fetchone _); reflexivity.
Qed.

End ListingFacts.

(** ** Key lifecycle *)

Section KeyLifecycle.

Variable sha256_hexdigest : string -> string.

Local Abbreviation hash_api_key := (hash_api_key sha256_hexdigest).
Local Abbreviation rotate_api_key := (rotate_api_key sha256_hexdigest).
Local Abbreviation create_api_key := (create_api_key sha256_hexdigest).

Lemma fetchone_select_active_key customer_id key_hash db key_id :
  Sql.fetchone (Stmt.select_active_key_id customer_id key_hash db) = Some key_id ->
  exists r, In r (api_keys db) /\ ApiKey.id r = key_id /\
            ApiKey.customer_id r = customer_id /\
            ApiKey.key_hash r = key_hash /\ ApiKey.revoked r = false.
Proof.
  unfold Sql.fetchone, Stmt.select_active_key_id.
  destruct (filter _ _) as [|r rows] eqn:E; [discriminate|].
  cbn [map hd_error]. intros H. injection H as <-.
  assert (Hr : In r (filter (Stmt.active_key customer_id key_hash) (api_keys db)))
    by (rewrite E; now left).
  apply filter_In in Hr as [Hr Hact]. unfold Stmt.active_key in Hact.
  apply andb_true_iff in Hact as [Hact Hrev].
  apply andb_true_iff in Hact as [Hc Hh].
  apply String.eqb_eq in Hc, Hh. apply negb_true_iff in Hrev.
  exists r. auto.
Qed.

(** Without a live row for (customer, digest) a rotation ends in 404. *)
Lemma rotate_without_active_key env request customer_id db :
  (forall r, In r (api_keys db) ->
     ApiKey.key_hash r = hash_api_key (APIKeyRotateRequest.old_key request) ->
     ApiKey.customer_id r = customer_id -> ApiKey.revoked r = true) ->
  run (rotate_api_key env request customer_id) db
    = (inl (HTTPException 404 "API key not found"), db).
Proof.
  intros H. rewrite run_rotate_api_key. unfold Stmt.select_active_key_id.
  rewrite TableFacts.filter_none; [reflexivity|].
  intros r Hr. unfold Stmt.active_key.
  destruct (String.eqb_spec (ApiKey.customer_id r) customer_id) as [Hc|]; [|reflexivity].
  destruct (String.eqb_spec (ApiKey.key_hash r)
              (hash_api_key (APIKeyRotateRequest.old_key request))) as [Hh|];
    [|reflexivity].
  now rewrite (H r Hr Hh Hc).
Qed.


Lemma insert_api_key_stored ts customer_id key_hash name db r :
  In r (api_keys db) -> ApiKey.key_hash r = key_hash ->
  Stmt.insert_api_key ts customer_id key_hash name db = inl IntegrityError.
Proof.
  intros Hr Heq. unfold Stmt.insert_api_key.
  destruct (existsb _ _) eqn:E; [reflexivity|].
  assert (existsb (fun x => String.eqb (ApiKey.key_hash x) key_hash)
                  (api_keys db) = true); [|congruence].
  apply existsb_exists. exists r. split; [exact Hr | now apply String.eqb_eq].
Qed.

Lemma run_create_api_key env request db :
  run (create_api_key env request) db =
  match Stmt.insert_api_key (sql_now env 0) (APIKeyRequest.customer_id request)
          (hash_api_key ("sk_" ++ token_urlsafe env))
          (APIKeyRequest.name request) db with
  | inl e => (inl e, db)
  | inr (db', key_id) =>
      (inr (KeyCreated.mk key_id ("sk_" ++ token_urlsafe env)
              (APIKeyRequest.name request) (PyDatetime.isoformat (now env))
              "Save this key - it won't be shown again"), db')
  end.
Proof.
  unfold run, create_api_key, bind, execute_insert, commit, close, ret.
  cbn [working committed].
  destruct (Stmt.insert_api_key _ _ _ _ _) as [e|[db' key_id]]; reflexivity.
Qed.

(** The rows of [api_keys] after the UPDATE of a rotation. *)
Lemma revoke_by_id_row key_id db x :
  In x (api_keys (Stmt.revoke_by_id key_id db)) ->
  exists y, In y (api_keys db) /\ ApiKey.key_hash x = ApiKey.key_hash y /\
            ApiKey.customer_id x = ApiKey.customer_id y /\
            ApiKey.id x = ApiKey.id y /\
            (ApiKey.id y = key_id -> ApiKey.revoked x = true).
Proof.
  cbn [Stmt.revoke_by_id api_keys]. intros Hx.
  apply in_map_iff in Hx as [y [Hy Hin]]. exists y. split; [exact Hin|].
  destruct (Z.eqb_spec (ApiKey.id y) key_id) as [E|E]; subst x.
  - repeat split; reflexivity.
  - repeat split. intros; contradiction.
Qed.


(** X5.  For a live key of the customer, the rotation succeeds exactly
    when the digest of the new token is not yet stored in [api_keys]. *)
Theorem rotate_api_key_succeeds_iff_fresh env request customer_id db k :
  schema_ok db ->
  In k (api_keys db) ->
  ApiKey.customer_id k = customer_id ->
  ApiKey.key_hash k = hash_api_key (APIKeyRotateRequest.old_key request) ->
  ApiKey.revoked k = false ->
  ((exists body db',
      run (rotate_api_key env request customer_id) db = (inr body, db')) <->
   (forall r, In r (api_keys db) ->
      ApiKey.key_hash r <> hash_api_key ("sk_" ++ token_urlsafe env))) /\
  ((exists r, In r (api_keys db) /\
              ApiKey.key_hash r = hash_api_key ("sk_" ++ token_urlsafe env)) ->
   run (rotate_api_key env request customer_id) db = (inl IntegrityError, db)).
Proof.
  intros Hok Hin Hc Hh Hrev.
  assert (Hstored : forall r, In r (api_keys db) ->
            ApiKey.key_hash r = hash_api_key ("sk_" ++ token_urlsafe env) ->
            run (rotate_api_key env request customer_id) db
              = (inl IntegrityError, db)).
  { intros r Hr Heq. destruct Hok as (_ & Hhash & _).
    rewrite run_rotate_api_key.
    rewrite (select_active_key_found customer_id _ db k Hhash Hin Hc Hh Hrev).
    rewrite (insert_api_key_stored _ _ _ _ _
               (if ApiKey.id r =? ApiKey.id k then ApiKey.set_revoked r else r));
      [reflexivity | |].
    - cbn [Stmt.revoke_by_id api_keys]. apply in_map_iff. now exists r.
    - rewrite <- Heq. destruct (ApiKey.id r =? ApiKey.id k); reflexivity. }
  split; [split|].
  - intros (body & db' & Hrun) r Hr Heq.
    rewrite (Hstored r Hr Heq) in Hrun. discriminate.
  - intros Hfresh.
    now apply (rotate_api_key_returns sha256_hexdigest env request customer_id db k).
  - intros (r & Hr & Heq). now apply (Hstored r).
Qed.

(** X6.  After a successful rotation the old plaintext is dead: whoever
    presents it again gets 404, and that request changes nothing. *)
Theorem rotate_api_key_old_key_dead env request customer_id db body db' :
  schema_ok db ->
  run (rotate_api_key env request customer_id) db = (inr body, db') ->
  forall env' customer_id',
    run (rotate_api_key env' request customer_id') db'
      = (inl (HTTPException 404 "API key not found"), db').
Proof.
  intros (_ & Hhash & _) Hrun env' customer_id'.
  rewrite run_rotate_api_key in Hrun.
  destruct (Sql.fetchone _) as [old_key_id|] eqn:Hsel; [|discriminate].
  apply fetchone_select_active_key in Hsel as (k & Hk & Hkid & _ & Hkh & _).
  unfold Stmt.insert_api_key in Hrun.
  destruct (existsb _ _) eqn:Hex; [discriminate|].
  injection Hrun as _ <-.
  apply rotate_without_active_key. cbn [api_keys].
  intros x Hx Hxh _. apply in_app_or in Hx as [Hx|[<-|[]]].
  - apply revoke_by_id_row in Hx as (y & Hy & Eh & _ & _ & Hrev).
    apply Hrev. rewrite <- Hkid. f_equal.
    apply (TableFacts.key_determines_row ApiKey.key_hash (api_keys db)); auto.
    congruence.
  - exfalso. cbn [ApiKey.key_hash] in Hxh.
    assert (existsb
              (fun r => String.eqb (ApiKey.key_hash r)
                          (hash_api_key ("sk_" ++ token_urlsafe env)))
              (api_keys (Stmt.revoke_by_id old_key_id db)) = true); [|congruence].
    apply existsb_exists.
    exists (if ApiKey.id k =? old_key_id then ApiKey.set_revoked k else k).
    split.
    + cbn [Stmt.revoke_by_id api_keys]. apply in_map_iff. now exists k.
    + apply String.eqb_eq.
      transitivity (ApiKey.key_hash k);
        [destruct (ApiKey.id k =? old_key_id); reflexivity|].
      rewrite Hkh. symmetry. exact Hxh.
Qed.

(** X7.  The plaintext a rotation returns is a live key of the same
    customer: presented with a token whose digest is not stored yet, it
    rotates in turn. *)
Theorem rotate_api_key_new_key_rotates env request customer_id db body db' :
  schema_ok db ->
  run (rotate_api_key env request customer_id) db = (inr body, db') ->
  forall env',
    (forall r, In r (api_keys db') ->
       ApiKey.key_hash r <> hash_api_key ("sk_" ++ token_urlsafe env')) ->
    exists body' db'',
      run (rotate_api_key env'
             (APIKeyRotateRequest.mk (KeyRotated.api_key body)) customer_id) db'
        = (inr body', db'').
Proof.
  intros Hok Hrun env' Hfresh.
  pose proof (rotate_api_key_schema sha256_hexdigest env request customer_id db Hok)
    as Hok'.
  rewrite Hrun in Hok'. cbn [snd] in Hok'.
  rewrite run_rotate_api_key in Hrun.
  destruct (Sql.fetchone _) as [old_key_id|]; [|discriminate].
  unfold Stmt.insert_api_key in Hrun.
  destruct (existsb _ _); [discriminate|].
  injection Hrun as <- <-.
  eapply (rotate_api_key_returns sha256_hexdigest env' _ customer_id _
            (ApiKey.mk _ customer_id
               (hash_api_key ("sk_" ++ token_urlsafe env)) (Some "Rotated Key")
               (sql_now env 2) None false)); auto.
  cbn [api_keys]. apply in_or_app. right. left. reflexivity.
Qed.


(** X9.  A key that was just created can be rotated by the customer it
    was created for (given a token with an unused digest), and by nobody
    else: any other customer presenting the plaintext gets 404. *)
Theorem created_key_rotates_for_owner_only env request db created db1 :
  schema_ok db ->
  run (create_api_key env request) db = (inr created, db1) ->
  let rotate := APIKeyRotateRequest.mk (KeyCreated.api_key created) in
  (forall env',
     (forall r, In r (api_keys db1) ->
        ApiKey.key_hash r <> hash_api_key ("sk_" ++ token_urlsafe env')) ->
     exists body db2,
       run (rotate_api_key env' rotate (APIKeyRequest.customer_id request)) db1
         = (inr body, db2)) /\
  (forall env' other,
     other <> APIKeyRequest.customer_id request ->
     run (rotate_api_key env' rotate other) db1
       = (inl (HTTPException 404 "API key not found"), db1)).
Proof.
  intros Hok Hrun rotate.
  pose proof (create_api_key_schema sha256_hexdigest env request db Hok) as Hok1.
  rewrite Hrun in Hok1. cbn [snd] in Hok1.
  rewrite run_create_api_key in Hrun. unfold Stmt.insert_api_key in Hrun.
  destruct (existsb _ _) eqn:Hex; [discriminate|].
  injection Hrun as <- <-. unfold rotate. cbn [KeyCreated.api_key].
  set (row := ApiKey.mk (Sql.next_rowid (map ApiKey.id (api_keys db)))
                (APIKeyRequest.customer_id request)
                (hash_api_key ("sk_" ++ token_urlsafe env))
                (APIKeyRequest.name request) (sql_now env 0) None false) in *.
  assert (Hrow : In row (api_keys db ++ [row])%list)
    by (apply in_or_app; right; now left).
  split.
  - intros env' Hfresh.
    eapply (rotate_api_key_returns sha256_hexdigest env' _ _ _ row); eauto.
  - intros env' other Hother. apply rotate_without_active_key.
    cbn [api_keys APIKeyRotateRequest.old_key]. intros x Hx Hxh Hxc.
    destruct Hok1 as (_ & Hhash & _). cbn [api_keys] in Hhash.
    assert (x = row).
    { apply (TableFacts.key_determines_row ApiKey.key_hash
               (api_keys db ++ [row])%list); auto. }
    subst x. cbn [row ApiKey.customer_id] in Hxc. congruence.
Qed.

End KeyLifecycle.

(** ** Revocation *)

Section Revocation.

Variable sha256_hexdigest : string -> string.
Variable str_lower : string -> string.

Local Abbreviation hash_api_key := (hash_api_key sha256_hexdigest).
Local Abbreviation rotate_api_key := (rotate_api_key sha256_hexdigest).
Local Abbreviation create_api_key := (create_api_key sha256_hexdigest).

Lemma revoke_by_id_and_customer_row key_id customer_id db x :
  In x (api_keys (Stmt.revoke_by_id_and_customer key_id customer_id db)) ->
  exists y, In y (api_keys db) /\ ApiKey.key_hash x = ApiKey.key_hash y /\
            ApiKey.customer_id x = ApiKey.customer_id y /\
            ApiKey.id x = ApiKey.id y /\
            (ApiKey.id y = key_id -> ApiKey.customer_id y = customer_id ->
             ApiKey.revoked x = true).
Proof.
  cbn [Stmt.revoke_by_id_and_customer api_keys]. intros Hx.
  apply in_map_iff in Hx as [y [Hy Hin]]. exists y. split; [exact Hin|].
  destruct ((ApiKey.id y =? key_id) &&
            String.eqb (ApiKey.customer_id y) customer_id) eqn:E; subst x.
  - repeat split; reflexivity.
  - repeat split. intros Hid Hc.
    rewrite Hid, Hc, Z.eqb_refl, String.eqb_refl in E. discriminate.
Qed.

(** X10.  Once its owner has revoked a key (whose id, as every stored
    id, is a 64-bit integer), the key cannot be rotated: whoever presents
    its plaintext gets 404. *)
Theorem revoked_key_cannot_rotate env request customer_id db k :
  schema_ok db ->
  In k (api_keys db) ->
  Sql.in_int64 (ApiKey.id k) = true ->
  ApiKey.customer_id k = customer_id ->
  ApiKey.key_hash k = hash_api_key (APIKeyRotateRequest.old_key request) ->
  let db' := snd (run (revoke_api_key (ApiKey.id k) customer_id) db) in
  forall customer_id',
    run (rotate_api_key env request customer_id') db'
      = (inl (HTTPException 404 "API key not found"), db').
Proof.
  intros (_ & Hhash & _) Hk Hrange Hc Hh db' customer_id'.
  apply rotate_without_active_key. unfold db'.
  rewrite run_revoke_api_key, Hrange.
  cbn [snd]. intros x Hx Hxh _.
  apply revoke_by_id_and_customer_row in Hx as (y & Hy & Eh & _ & _ & Hrev).
  assert (y = k).
  { apply (TableFacts.key_determines_row ApiKey.key_hash (api_keys db)); auto.
    congruence. }
  subst y. now apply Hrev.
Qed.

(** X11.  A revocation touches at most the key it names, and only if
    the caller owns it: rows of other customers and rows with another id
    are still there unchanged, the caller's row with that id (a 64-bit
    integer, as every stored id) is revoked, the key table keeps its ids
    in order, and no other table changes. *)
Theorem revoke_api_key_touches_one_key (key_id : Z) (customer_id : string)
    (db : Store) :
  let db' := snd (run (revoke_api_key key_id customer_id) db) in
  (forall r, In r (api_keys db) -> ApiKey.customer_id r <> customer_id ->
     In r (api_keys db')) /\
  (forall r, In r (api_keys db) -> ApiKey.id r <> key_id -> In r (api_keys db')) /\
  (forall r, In r (api_keys db) -> ApiKey.id r = key_id ->
     ApiKey.customer_id r = customer_id -> Sql.in_int64 key_id = true ->
     In (ApiKey.set_revoked r) (api_keys db')) /\
  map ApiKey.id (api_keys db') = map ApiKey.id (api_keys db) /\
  usage db' = usage db /\ tickets db' = tickets db /\
  ticket_responses db' = ticket_responses db /\ billing db' = billing db.
Proof.
  intros db'. unfold db'. rewrite run_revoke_api_key.
  destruct (Sql.in_int64 key_id);
    cbn [snd Stmt.revoke_by_id_and_customer api_keys usage tickets
         ticket_responses billing].
  - repeat split.
    + intros r Hr Hc. apply in_map_iff. exists r. split; [|exact Hr].
      apply String.eqb_neq in Hc. now rewrite Hc, andb_false_r.
    + intros r Hr Hid. apply in_map_iff. exists r. split; [|exact Hr].
      apply Z.eqb_neq in Hid. now rewrite Hid.
    + intros r Hr Hid Hc _. apply in_map_iff. exists r. split; [|exact Hr].
      now rewrite Hid, Hc, Z.eqb_refl, String.eqb_refl.
    + apply (TableFacts.map_key_update ApiKey.id). reflexivity.
  - repeat split; auto. discriminate.
Qed.

Lemma keys_kept_refl db : keys_kept db db.
Proof. intros r Hr. exists r. auto. Qed.

Lemma keys_kept_update (p : ApiKey.row -> bool) db rows :
  rows = map (fun r => if p r then ApiKey.set_revoked r else r) (api_keys db) ->
  forall extra u t tr b,
    keys_kept db (mk_store (rows ++ extra)%list u t tr b).
Proof.
  intros -> extra u t tr b r Hr.
  exists (if p r then ApiKey.set_revoked r else r). split.
  - cbn [api_keys]. apply in_or_app. left. apply in_map_iff. now exists r.
  - destruct (p r); auto.
Qed.

(** X12.  No request deletes a key row, moves it to another customer or
    changes its digest, and no request makes a revoked key active again;
    this holds for every handler that writes, whatever it returns. *)
Theorem key_rows_are_kept (env : Env) (db : Store) :
  (forall request, keys_kept db (snd (run (create_api_key env request) db))) /\
  (forall request customer_id,
     keys_kept db (snd (run (rotate_api_key env request customer_id) db))) /\
  (forall key_id customer_id,
     keys_kept db (snd (run (revoke_api_key key_id customer_id) db))) /\
  (forall ticket customer_id,
     keys_kept db (snd (run (create_ticket str_lower env ticket customer_id) db))).
Proof.
  split; [|split; [|split]].
  - intros request. rewrite run_create_api_key. unfold Stmt.insert_api_key.
    destruct (existsb _ _); cbn [snd]; [apply keys_kept_refl|].
    apply (keys_kept_update (fun _ => false)).
    symmetry. apply (TableFacts.update_noop (fun _ => false) ApiKey.set_revoked).
    discriminate.
  - intros request customer_id. rewrite run_rotate_api_key.
    destruct (Sql.fetchone _) as [old_key_id|]; [|apply keys_kept_refl].
    unfold Stmt.insert_api_key. destruct (existsb _ _); cbn [snd];
      [apply keys_kept_refl|].
    now apply (keys_kept_update (fun r => ApiKey.id r =? old_key_id)).
  - intros key_id customer_id. rewrite run_revoke_api_key.
    destruct (Sql.in_int64 key_id); cbn [snd]; [|apply keys_kept_refl].
    unfold Stmt.revoke_by_id_and_customer.
    rewrite <- (app_nil_r (map _ (api_keys db))).
    now apply (keys_kept_update
                 (fun r => (ApiKey.id r =? key_id) &&
                           String.eqb (ApiKey.customer_id r) customer_id)).
  - intros ticket customer_id.
    destruct (TicketFacts.create_ticket_tables str_lower env ticket customer_id db)
      as (db' & Hrun & _ & _ & Hkeys & _).
    rewrite Hrun. cbn [snd]. intros r Hr. exists r. rewrite Hkeys. auto.
Qed.

End Revocation.

(** ** Usage counts *)

Module UsageCounts.

Lemma count_filter_le {R : Type} (p : R -> bool) (l : list R) :
  Sql.COUNT (filter p l) <= Sql.COUNT l.
Proof.
  unfold Sql.COUNT. apply inj_le.
  induction l as [|x l IH]; cbn [filter List.length]; [lia|].
  destruct (p x); cbn [List.length]; lia.
Qed.

Lemma count_filter_mono {R : Type} (p q : R -> bool) (l : list R) :
  (forall x, p x = true -> q x = true) ->
  Sql.COUNT (filter p l) <= Sql.COUNT (filter q l).
Proof.
  intros H. unfold Sql.COUNT. apply inj_le.
  induction l as [|x l IH]; cbn [filter List.length]; [lia|].
  destruct (p x) eqn:E.
  - rewrite (H x E). cbn [List.length]. lia.
  - destruct (q x); cbn [List.length]; lia.
Qed.

(** An event of today's date is an event of today's month. *)
Lemma same_day_same_month t0 t1 r :
  Sql.strftime_Ym t0 = Sql.strftime_Ym t1 ->
  Stmt.same_day t0 r = true -> Stmt.same_month t1 r = true.
Proof.
  unfold Stmt.same_day, Stmt.same_month, Sql.strftime_Ym, Sql.DATE,
    Sql.date_eqb, Sql.ym_eqb.
  intros E. injection E as Ey Em.
  destruct (Usage.timestamp r) as [t|]; [|discriminate].
  intros H. apply andb_true_iff in H as [H _].
  now rewrite <- Ey, <- Em.
Qed.

(** X13.  The statistics that are returned are consistent: no count is
    negative, today's and this month's counts are at most the all-time
    count, the quota shown is at most 1000, and when the two statements
    read the SQL clock in the same month today's count is at most this
    month's. *)
Theorem get_usage_stats_counts_ordered env customer_id db stats db' :
  run (get_usage_stats env customer_id) db = (inr stats, db') ->
  0 <= UsageStats.today stats <= UsageStats.all_time stats /\
  0 <= UsageStats.this_month stats <= UsageStats.all_time stats /\
  UsageStats.current_rate_limit stats <= 1000 /\
  (Sql.strftime_Ym (sql_now env 0) = Sql.strftime_Ym (sql_now env 1) ->
   UsageStats.today stats <= UsageStats.this_month stats).
Proof.
  rewrite UsageFacts.run_get_usage_stats. cbv zeta.
  destruct (PyDatetime.add_one_day (now env)); [|discriminate].
  intros H. apply pair_equal_spec in H as [H _].
  assert (Hinr : forall x y : UsageStats.t,
            @inr Failure UsageStats.t x = inr y -> x = y)
    by (intros x y Hxy; congruence).
  apply Hinr in H. subst stats. clear Hinr.
  cbv beta iota delta [UsageStats.today UsageStats.this_month
                       UsageStats.all_time UsageStats.current_rate_limit].
  unfold Stmt.count_usage_today, Stmt.count_usage_month, Stmt.count_usage_all.
  pose proof (UsageFacts.count_nonneg
                (filter (Stmt.same_day (sql_now env 0))
                        (Stmt.usage_of customer_id db))).
  pose proof (UsageFacts.count_nonneg
                (filter (Stmt.same_month (sql_now env 1))
                        (Stmt.usage_of customer_id db))).
  pose proof (count_filter_le (Stmt.same_day (sql_now env 0))
                (Stmt.usage_of customer_id db)).
  pose proof (count_filter_le (Stmt.same_month (sql_now env 1))
                (Stmt.usage_of customer_id db)).
  split; [lia|]. split; [lia|]. split; [lia|].
  intros E. apply count_filter_mono. intros r. now apply same_day_same_month.
Qed.

(** X14.  The statistics of a customer do not depend on the events of
    other customers: with any such events added to [usage], the handler
    returns the same. *)
Theorem get_usage_stats_ignores_other_customers env customer_id db others :
  (forall r, In r others -> Usage.customer_id r <> customer_id) ->
  fst (run (get_usage_stats env customer_id)
         (mk_store (api_keys db) (usage db ++ others)%list (tickets db)
                   (ticket_responses db) (billing db)))
  = fst (run (get_usage_stats env customer_id) db).
Proof.
  intros Hothers. rewrite !UsageFacts.run_get_usage_stats. cbv zeta.
  assert (E : Stmt.usage_of customer_id
                (mk_store (api_keys db) (usage db ++ others)%list (tickets db)
                          (ticket_responses db) (billing db))
              = Stmt.usage_of customer_id db).
  { unfold Stmt.usage_of. cbn [usage]. rewrite filter_app.
    rewrite (TableFacts.filter_none _ others); [apply app_nil_r|].
    intros r Hr. apply String.eqb_neq. now apply Hothers. }
  unfold Stmt.count_usage_today, Stmt.count_usage_month, Stmt.count_usage_all.
  rewrite E. destruct (PyDatetime.add_one_day (now env)); reflexivity.
Qed.

End UsageCounts.

(** ** Tickets and their replies *)

Module TicketLifecycle.

Section Lower.

Variable str_lower : string -> string.





(** X17.  Creating a ticket keeps the ticket tables consistent: every
    response row still names an existing ticket, and every ticket flagged
    ai_responded has a reply that is not from an agent. *)
Theorem create_ticket_keeps_tickets_consistent env ticket customer_id db :
  responses_reference_tickets db ->
  flagged_tickets_have_reply db ->
  let db' := snd (run (create_ticket str_lower env ticket customer_id) db) in
  responses_reference_tickets db' /\ flagged_tickets_have_reply db'.
Proof.
  intros Hfk Hflag db'.
  destruct (TicketFacts.create_ticket_tables str_lower env ticket customer_id db)
    as (db1 & Hrun & Htk & Hrs & _).
  unfold db'. rewrite Hrun. cbn [snd]. split.
  - intros r Hr. rewrite Hrs in Hr. rewrite Htk.
    apply in_app_or in Hr as [Hr|Hr].
    + destruct (Hfk r Hr) as (t & Ht & E). exists t. split; [|exact E].
      apply in_or_app. now left.
    + destruct (Responder.generate_ai_response _ _ _ _); [|contradiction].
      destruct Hr as [<-|[]]. eexists. split.
      * apply in_or_app. right. left. reflexivity.
      * reflexivity.
  - intros t Ht Hai. rewrite Htk in Ht. rewrite Hrs.
    apply in_app_or in Ht as [Ht|[<-|[]]].
    + destruct (Hflag t Ht Hai) as (r & Hr & E). exists r. split; [|exact E].
      apply in_or_app. now left.
    + cbn [Ticket.ai_responded Ticket.id] in *.
      destruct (Responder.generate_ai_response _ _ _ _); [|discriminate].
      eexists. split; [apply in_or_app; right; left; reflexivity|].
      split; reflexivity.
Qed.

End Lower.

(** X18.  The ticket listing of a customer shows each of the customer's
    tickets once and no other ticket, the most recently created first. *)
Theorem list_tickets_own_tickets_newest_first (customer_id : string) (db : Store) :
  exists rows,
    run (list_tickets customer_id) db = (inr (map ticket_info rows), db) /\
    Permutation rows
      (filter (fun r => String.eqb (Ticket.customer_id r) customer_id)
              (tickets db)) /\
    newest_first Ticket.created_at rows.
Proof.
  exists (Stmt.select_tickets_of customer_id db).
  split; [apply TicketFacts.run_list_tickets|]. unfold Stmt.select_tickets_of.
  split; [apply OrderFacts.order_by_Permutation|].
  unfold newest_first.
  apply (OrderFacts.order_by_Sorted
           (fun a b => Sql.ts_leb (Ticket.created_at b) (Ticket.created_at a))).
  intros a b. apply OrderFacts.ts_leb_total.
Qed.

(** X19.  For a ticket of the caller (its id, as every stored id, a
    64-bit integer), the responses returned are exactly the rows of
    [ticket_responses] with that ticket id, each once, the oldest
    first. *)
Theorem get_ticket_responses_own_ticket ticket_id customer_id db t :
  In t (tickets db) ->
  Ticket.id t = ticket_id ->
  Sql.in_int64 ticket_id = true ->
  Ticket.customer_id t = customer_id ->
  exists rows,
    run (get_ticket_responses ticket_id customer_id) db
      = (inr (map response_info rows), db) /\
    Permutation rows
      (filter (fun r => TicketResponse.ticket_id r =? ticket_id)
              (ticket_responses db)) /\
    oldest_first TicketResponse.created_at rows.
Proof.
  intros Ht Hid Hrange Hc. exists (Stmt.select_responses_of ticket_id db). split.
  - rewrite TicketFacts.run_get_ticket_responses, Hrange.
    unfold Stmt.select_owned_ticket, Sql.fetchone.
    destruct (filter _ _) as [|x rest] eqn:E; [|reflexivity].
    exfalso.
    assert (Hin : In t (filter (Stmt.owned_ticket ticket_id customer_id) (tickets db))).
    { apply filter_In. split; [exact Ht|]. unfold Stmt.owned_ticket.
      now rewrite Hid, Hc, Z.eqb_refl, String.eqb_refl. }
    now rewrite E in Hin.
  - unfold Stmt.select_responses_of.
    split; [apply OrderFacts.order_by_Permutation|].
    unfold oldest_first.
    apply (OrderFacts.order_by_Sorted
             (fun a b => Sql.ts_leb (TicketResponse.created_at a)
                                    (TicketResponse.created_at b))).
    intros a b. apply OrderFacts.ts_leb_total.
Qed.

End TicketLifecycle.

(** ** Case and the auto-responder *)

Module ResponderCase.
Import PyStr Responder.

Section Lower.

Variable str_lower : string -> string.

Lemma text_of_ascii_lower subject message :
  blind_to_ascii_case str_lower ->
  text_of str_lower (ascii_lower subject) (ascii_lower message)
    = text_of str_lower subject message.
Proof.
  intros H. unfold text_of. rewrite <- (H (subject ++ " " ++ message)).
  now rewrite !PyStrFacts.ascii_lower_app.
Qed.

(** X20.  The auto-responder is blind to letter case and to the
    category: two tickets whose subjects and whose messages differ only
    in the case of ASCII letters get the same reply, whatever their
    categories.  [str.lower] is any function that gives the same result
    on strings that differ only in the case of ASCII letters. *)
Theorem generate_ai_response_case_insensitive
    (subject1 message1 category1 subject2 message2 category2 : string) :
  blind_to_ascii_case str_lower ->
  ascii_lower subject1 = ascii_lower subject2 ->
  ascii_lower message1 = ascii_lower message2 ->
  generate_ai_response str_lower subject1 message1 category1
    = generate_ai_response str_lower subject2 message2 category2.
Proof.
  intros H Hs Hm. unfold generate_ai_response. cbv zeta.
  rewrite <- (text_of_ascii_lower subject1 message1 H).
  rewrite <- (text_of_ascii_lower subject2 message2 H).
  now rewrite Hs, Hm.
Qed.

End Lower.

End ResponderCase.

(** ** The schema, for every writing handler *)

Section SchemaKept.

Variable sha256_hexdigest : string -> string.
Variable str_lower : string -> string.

(** X21.  The constraints that init_db declares, a PRIMARY KEY on every
    table and UNIQUE on api_keys.key_hash, hold after every handler that
    writes if they held before, whatever the handler returns. *)
Theorem schema_is_kept (env : Env) (db : Store) :
  schema_ok db ->
  (forall request,
     schema_ok (snd (run (create_api_key sha256_hexdigest env request) db))) /\
  (forall request customer_id,
     schema_ok (snd (run (rotate_api_key sha256_hexdigest env request customer_id) db))) /\
  (forall key_id customer_id,
     schema_ok (snd (run (revoke_api_key key_id customer_id) db))) /\
  (forall ticket customer_id,
     schema_ok (snd (run (create_ticket str_lower env ticket customer_id) db))).
Proof.
  intros Hok. split; [|split; [|split]]; intros.
  - now apply create_api_key_schema.
  - now apply rotate_api_key_schema.
  - now apply revoke_api_key_schema.
  - now apply create_ticket_schema.
Qed.

End SchemaKept.

(** ** The further properties on the sample data *)

Module MoreRuns.
Import Sample.


Lemma rotate_api_key_succeeds_iff_fresh_witness :
  run (rotate_api_key digest env_collision rotate_request "alice") db_keys
    = (inl IntegrityError, db_keys).
Proof.
  apply (proj2 (rotate_api_key_succeeds_iff_fresh digest env_collision
                  rotate_request "alice" db_keys alice_key
                  Witness.schema_ok_db_keys (or_introl eq_refl)
                  eq_refl eq_refl eq_refl)).
  exists bob_key. split; [right; left; reflexivity | reflexivity].
Defined.

Lemma rotate_api_key_old_key_dead_witness :
  run (rotate_api_key digest env_next rotate_request "alice") db_rotated
    = (inl (HTTPException 404 "API key not found"), db_rotated).
Proof.
  apply (rotate_api_key_old_key_dead digest env rotate_request "alice" db_keys
           rotated_body db_rotated Witness.schema_ok_db_keys).
  vm_compute. reflexivity.
Defined.

Lemma rotate_api_key_new_key_rotates_witness :
  exists body' db'',
    run (rotate_api_key digest env_next
           (APIKeyRotateRequest.mk (KeyRotated.api_key rotated_body)) "alice")
        db_rotated
      = (inr body', db'').
Proof.
  apply (rotate_api_key_new_key_rotates digest env rotate_request "alice" db_keys
           rotated_body db_rotated Witness.schema_ok_db_keys).
  - vm_compute. reflexivity.
  - intros r [<-|[<-|[<-|[]]]]; vm_compute; discriminate.
Defined.

Lemma created_key_rotates_for_owner_only_witness :
  run (rotate_api_key digest env_next
         (APIKeyRotateRequest.mk "sk_Zm9vYmFy") "alice") db_created
    = (inl (HTTPException 404 "API key not found"), db_created).
Proof.
  apply (proj2 (created_key_rotates_for_owner_only digest env create_request
                  db_keys
                  (KeyCreated.mk 3 "sk_Zm9vYmFy" (Some "Default Key")
                     "2024-01-15T10:30:45.123456"
                     "Save this key - it won't be shown again")
                  db_created Witness.schema_ok_db_keys
                  ltac:(vm_compute; reflexivity))).
  discriminate.
Defined.

Lemma revoked_key_cannot_rotate_witness :
  run (rotate_api_key digest env rotate_request "alice")
      (snd (run (revoke_api_key 1 "alice") db_keys))
    = (inl (HTTPException 404 "API key not found"),
       snd (run (revoke_api_key 1 "alice") db_keys)).
Proof.
  apply (revoked_key_cannot_rotate digest env rotate_request "alice" db_keys
           alice_key Witness.schema_ok_db_keys (or_introl eq_refl)
           eq_refl eq_refl eq_refl).
Defined.

Lemma get_usage_stats_counts_ordered_witness :
  let stats := UsageStats.mk 1 1 1 999 (Some "2024-01-16T00:00:00.123456") in
  0 <= UsageStats.today stats <= UsageStats.all_time stats /\
  0 <= UsageStats.this_month stats <= UsageStats.all_time stats /\
  UsageStats.current_rate_limit stats <= 1000 /\
  (Sql.strftime_Ym (sql_now env 0) = Sql.strftime_Ym (sql_now env 1) ->
   UsageStats.today stats <= UsageStats.this_month stats).
Proof.
  apply (UsageCounts.get_usage_stats_counts_ordered env "alice" db_usage _ db_usage).
  vm_compute. reflexivity.
Defined.

Lemma get_usage_stats_ignores_other_customers_witness :
  fst (run (get_usage_stats env "alice")
         (mk_store [] [event "alice" 1; event "bob" 2; event "carol" 3] [] [] []))
  = fst (run (get_usage_stats env "alice") db_usage).
Proof.
  apply (UsageCounts.get_usage_stats_ignores_other_customers env "alice" db_usage
           [event "bob" 2; event "carol" 3]).
  intros r [<-|[<-|[]]]; discriminate.
Defined.

Lemma responses_reference_tickets_sample : responses_reference_tickets db_tickets.
Proof.
  intros r [<-|[]]. exists alice_ticket. split; [now left | reflexivity].
Defined.

Lemma flagged_tickets_have_reply_sample : flagged_tickets_have_reply db_tickets.
Proof.
  intros t [<-|[<-|[]]] H; [|discriminate].
  exists alice_reply. split; [now left | split; reflexivity].
Defined.


Lemma create_ticket_keeps_tickets_consistent_witness :
  let ticket := TicketCreate.mk "Invoice missing" "where is my bill" "billing" in
  let db' := snd (run (create_ticket lower env ticket "bob") db_tickets) in
  responses_reference_tickets db' /\ flagged_tickets_have_reply db'.
Proof.
  apply (TicketLifecycle.create_ticket_keeps_tickets_consistent lower env
           (TicketCreate.mk "Invoice missing" "where is my bill" "billing")
           "bob" db_tickets responses_reference_tickets_sample
           flagged_tickets_have_reply_sample).
Defined.

Lemma get_ticket_responses_own_ticket_witness :
  exists rows,
    run (get_ticket_responses 1 "alice") db_tickets
      = (inr (map response_info rows), db_tickets) /\
    Permutation rows
      (filter (fun r => TicketResponse.ticket_id r =? 1)
              (ticket_responses db_tickets)) /\
    oldest_first TicketResponse.created_at rows.
Proof.
  apply (TicketLifecycle.get_ticket_responses_own_ticket 1 "alice" db_tickets
           alice_ticket (or_introl eq_refl) eq_refl eq_refl eq_refl).
Defined.

Lemma generate_ai_response_case_insensitive_witness :
  Responder.generate_ai_response lower "NEED TO RESET KEY" "Help" "account"
    = Responder.generate_ai_response lower "need to reset key" "help" "general".
Proof.
  apply (ResponderCase.generate_ai_response_case_insensitive lower
           "NEED TO RESET KEY" "Help" "account"
           "need to reset key" "help" "general"
           PyStrFacts.ascii_lower_blind);
    reflexivity.
Defined.

Lemma schema_is_kept_witness :
  schema_ok (snd (run (rotate_api_key digest env rotate_request "alice") db_keys)) /\
  schema_ok (snd (run (revoke_api_key 2 "bob") db_keys)).
Proof.
  destruct (schema_is_kept digest lower env db_keys Witness.schema_ok_db_keys)
    as (_ & Hrotate & Hrevoke & _).
  split; [apply Hrotate | apply Hrevoke].
Defined.

(** The billing history on three invoices: alice's two, newest first,
    each with the default description. *)
Example get_billing_history_sample :
  option_map (map BillingHistory.description)
    (match fst (run (get_billing_history "alice") db_billing) with
     | inr l => Some l
     | inl _ => None
     end) = Some ["API Usage"; "API Usage"] /\
  option_map (map BillingHistory.date)
    (match fst (run (get_billing_history "alice") db_billing) with
     | inr l => Some l
     | inl _ => None
     end) = Some ["2024-01-05 00:00:00"; "2024-01-03 00:00:00"].
Proof. vm_compute. split; reflexivity. Qed.

End MoreRuns.
